(** * PostService: the five Lambda handlers of [handler.py]

    A shallow embedding of [create], [get], [all], [update] and [delete]
    together with the collaborators they call: the [json] module, the
    [dynamo] marshaling helper and the boto3 DynamoDB client.  Handlers are
    computations in a small state-and-exception monad over the state of
    the store. *)

From Stdlib Require Import ZArith String Ascii List Lia.
From stdpp Require Import base option list strings gmap fin_maps.

Set Warnings "-register-all".
Local Open Scope Z_scope.
Local Open Scope string_scope.

(** ** Python values *)

(** The values [json.loads] can produce.  A [dict] is an association list in
    insertion order, as Python keeps it.  Floats are left out. *)
Inductive pyval : Type :=
  | PNone
  | PBool (b : bool)
  | PInt (n : Z)
  | PStr (s : string)
  | PList (l : list pyval)
  | PDict (d : list (string * pyval)).

(** Exceptions the handlers can meet. *)
Inductive exn : Type :=
  | TypeError
  | KeyError (key : string)
  | JSONDecodeError
  | ClientError (code : string).

Inductive result (A : Type) : Type :=
  | Ok (a : A)
  | Raise (e : exn).
Arguments Ok {A} a.
Arguments Raise {A} e.

(** ** Association lists: the mappings of Python *)

Module Alist.
Section Alist.
Context {V : Type}.

(** [d.get(k)]: the value bound to the first occurrence of [k]. *)
Fixpoint lookup (k : string) (d : list (string * V)) : option V :=
  match d with
  | [] => None
  | (k', v) :: d' => if String.eqb k k' then Some v else lookup k d'
  end.

(** [d[k] = v]: an existing key keeps its position, a new one goes last. *)
Fixpoint set (k : string) (v : V) (d : list (string * V)) : list (string * V) :=
  match d with
  | [] => [(k, v)]
  | (k', v') :: d' =>
      if String.eqb k k' then (k, v) :: d' else (k', v') :: set k v d'
  end.
End Alist.
End Alist.

(** [x[k]] with a string subscript. *)
Definition getitem (x : pyval) (k : string) : result pyval :=
  match x with
  | PDict d =>
      match Alist.lookup k d with
      | Some v => Ok v
      | None => Raise (KeyError k)
      end
  | _ => Raise TypeError
  end.

(** [x[k] = v] with a string subscript; the result is the mutated object. *)
Definition setitem (x : pyval) (k : string) (v : pyval) : result pyval :=
  match x with
  | PDict d => Ok (PDict (Alist.set k v d))
  | _ => Raise TypeError
  end.

(** ** The store's typed attribute values *)

(** A DynamoDB [AttributeValue]: [{"S": s}], [{"N": n}], [{"BOOL": b}],
    [{"NULL": true}], [{"L": [...]}], [{"M": {...}}].  An item, the mapping
    from attribute names to values, is the payload of [AM]. *)
Inductive attr : Type :=
  | AS (s : string)
  | AN (n : Z)
  | ABOOL (b : bool)
  | ANULL
  | AL (l : list attr)
  | AM (m : list (string * attr)).

Abbreviation item := (list (string * attr)).

(** Modelled from the spec: [dynamo.to_item], the helper module [dynamo.py]
    is not under src/.  The spec calls it the mechanical conversion from a
    plain key/value mapping to the store's native typed attribute
    representation; every Python value goes to the attribute value of its
    type, mappings and lists element by element. *)
Fixpoint to_item (v : pyval) : attr :=
  match v with
  | PNone => ANULL
  | PBool b => ABOOL b
  | PInt n => AN n
  | PStr s => AS s
  | PList l => AL (map to_item l)
  | PDict d => AM (map (fun kv => (fst kv, to_item (snd kv))) d)
  end.

(** Modelled from the spec: [dynamo.to_dict], absent like [to_item]; the
    conversion of the store's native representation back to plain
    key/value form. *)
Fixpoint to_dict (a : attr) : pyval :=
  match a with
  | ANULL => PNone
  | ABOOL b => PBool b
  | AN n => PInt n
  | AS s => PStr s
  | AL l => PList (map to_dict l)
  | AM m => PDict (map (fun kv => (fst kv, to_dict (snd kv))) m)
  end.

(** Structural induction that reaches below lists and mappings. *)
Section pyval_ind.
Variable P : pyval -> Prop.
Hypothesis HNone : P PNone.
Hypothesis HBool : forall b, P (PBool b).
Hypothesis HInt : forall n, P (PInt n).
Hypothesis HStr : forall s, P (PStr s).
Hypothesis HList : forall l, Forall P l -> P (PList l).
Hypothesis HDict : forall d, Forall (fun kv => P (snd kv)) d -> P (PDict d).

Fixpoint pyval_deep_ind (v : pyval) : P v :=
  match v with
  | PNone => HNone
  | PBool b => HBool b
  | PInt n => HInt n
  | PStr s => HStr s
  | PList l =>
      HList l ((fix go (l : list pyval) : Forall P l :=
                  match l with
                  | [] => List.Forall_nil P
                  | x :: l' => List.Forall_cons P x l' (pyval_deep_ind x) (go l')
                  end) l)
  | PDict d =>
      HDict d ((fix go (d : list (string * pyval))
                  : Forall (fun kv => P (snd kv)) d :=
                  match d with
                  | [] => List.Forall_nil _
                  | kv :: d' =>
                      List.Forall_cons _ kv d' (pyval_deep_ind (snd kv)) (go d')
                  end) d)
  end.
End pyval_ind.

Section attr_ind.
Variable P : attr -> Prop.
Hypothesis HS : forall s, P (AS s).
Hypothesis HN : forall n, P (AN n).
Hypothesis HBOOL : forall b, P (ABOOL b).
Hypothesis HNULL : P ANULL.
Hypothesis HL : forall l, Forall P l -> P (AL l).
Hypothesis HM : forall m, Forall (fun kv => P (snd kv)) m -> P (AM m).

Fixpoint attr_deep_ind (a : attr) : P a :=
  match a with
  | AS s => HS s
  | AN n => HN n
  | ABOOL b => HBOOL b
  | ANULL => HNULL
  | AL l =>
      HL l ((fix go (l : list attr) : Forall P l :=
               match l with
               | [] => List.Forall_nil P
               | x :: l' => List.Forall_cons P x l' (attr_deep_ind x) (go l')
               end) l)
  | AM m =>
      HM m ((fix go (m : item) : Forall (fun kv => P (snd kv)) m :=
               match m with
               | [] => List.Forall_nil _
               | kv :: m' =>
                   List.Forall_cons _ kv m' (attr_deep_ind (snd kv)) (go m')
               end) m)
  end.
End attr_ind.

(** ** Computations over the store *)

(** A handler runs against the state [S] of the store and either returns a
    value or raises; the state it leaves behind is kept in both cases. *)
Definition M (S A : Type) : Type := S -> result A * S.

Definition ret {S A} (a : A) : M S A := fun s => (Ok a, s).

Definition bind {S A B} (m : M S A) (k : A -> M S B) : M S B :=
  fun s =>
    match m s with
    | (Ok a, s') => k a s'
    | (Raise e, s') => (Raise e, s')
    end.

(** A pure step that may raise. *)
Definition lift {S A} (r : result A) : M S A := fun s => (r, s).

Notation "'do' x <- m ; k" := (bind m (fun x => k))
  (at level 10, x name, m at level 100, k at level 200).

(** ** The collaborators *)

(** The [json] module of the standard library.  [json_loads] is [None] where
    [json.loads] raises [JSONDecodeError]. *)
Class Json : Type := {
  json_loads : string -> option pyval;
  json_dumps : pyval -> string
}.

(** [json.loads(x)] for the [str | None] that the event's body is. *)
Definition loads `{Json} (x : option string) : result pyval :=
  match x with
  | None => Raise TypeError
  | Some s =>
      match json_loads s with
      | Some v => Ok v
      | None => Raise JSONDecodeError
      end
  end.

(** What a call of the DynamoDB client returns: [ResponseMetadata] with its
    [HTTPStatusCode], and the payload keys that are present. *)
Record ddb_response : Type := {
  HTTPStatusCode : Z;
  Item : option attr;
  Items : option (list attr);
  Attributes : option attr
}.

(** An update expression, parsed: [set a=:x, b=:y] is
    [SET [(a, :x); (b, :y)]]. *)
Inductive update_expression : Type :=
  | SET (assignments : list (string * string)).

(** The boto3 client, [dynamodb = boto3.client("dynamodb")], over a store
    state [S].  Every call may raise, and reports a status otherwise. *)
Class DynamoDB (S : Type) : Type := {
  put_item (TableName : string) (Item : attr) : M S ddb_response;
  get_item (TableName : string) (Key : item) : M S ddb_response;
  scan (TableName : string) : M S ddb_response;
  update_item (TableName : string) (Key : item)
    (UpdateExpression : update_expression)
    (ExpressionAttributeValues : item) (ReturnValues : string)
    : M S ddb_response;
  delete_item (TableName : string) (Key : item) : M S ddb_response
}.

(** ** Events and responses *)

(** The API Gateway proxy event, as far as the handlers read it: the body
    is a string or [None], the path parameters a mapping or [None]. *)
Record event : Type := {
  ev_body : option string;
  ev_pathParameters : option (list (string * string))
}.

(** The Lambda context object; no handler reads it. *)
Inductive context : Type := LambdaContext.

(** What the clock and the UUID generator give during one invocation:
    [datetime.now().isoformat()] and [str(uuid.uuid4())]. *)
Record sys : Type := {
  now_isoformat : string;
  uuid4 : string
}.

(** The response envelope; [headers] and [body] are optional keys. *)
Record response : Type := {
  statusCode : Z;
  headers : option (list (string * string));
  body : option string
}.

(** [event["pathParameters"][name]] *)
Definition path_parameter (ev : event) (name : string) : result string :=
  match ev_pathParameters ev with
  | None => Raise TypeError
  | Some ps =>
      match Alist.lookup name ps with
      | Some v => Ok v
      | None => Raise (KeyError name)
      end
  end.

(** ** The handlers *)

Module handler.
Section handler.
Context `{Json} {S : Type} `{DynamoDB S}.

(** [table_name = str(os.environ["DYNAMODB_TABLE"])] *)
Variable table_name : string.

Definition create (event : event) (context : context) (sys : sys)
  : M S response :=
  (* Set the default error response *)
  let response :=
    {| statusCode := 500; headers := None;
       body := Some "An error occurred while creating post." |} in
  (* extract the post from the body *)
  let post_str := ev_body event in
  (* convert to json and store in a post variable *)
  do post <- lift (loads post_str);
  (* generate a unique timestamp for the post *)
  let current_timestamp := now_isoformat sys in
  do post <- lift (setitem post "createdAt" (PStr current_timestamp));
  (* generate a unique id for the post *)
  do post <- lift (setitem post "id" (PStr (uuid4 sys)));
  (* insert the post into the database *)
  do res <- put_item table_name (to_item post);
  (* If creation is successful *)
  if (HTTPStatusCode res =? 200)%Z
  then ret {| statusCode := 201; headers := None; body := None |}
  else ret response.

Definition get (event : event) (context : context) : M S response :=
  (* Set the default error response *)
  let response :=
    {| statusCode := 500; headers := None;
       body := Some "An error occurred while getting post." |} in
  (* extract the post id from the path parameters *)
  do post_id <- lift (path_parameter event "postId");
  (* Query the post from the database *)
  do post_query <- get_item table_name [("id", AS post_id)];
  (* If the post is found *)
  match Item post_query with
  | Some post =>
      ret {| statusCode := 200;
             headers := Some [("Content-Type", "application/json")];
             body := Some (json_dumps (to_dict post)) |}
  | None => ret response
  end.

Definition all (event : event) (context : context) : M S response :=
  (* Set the default error response *)
  let response :=
    {| statusCode := 500; headers := None;
       body := Some "An error occurred while getting all posts." |} in
  (* Query the posts from the database *)
  do res <- scan table_name;
  do scan_result <-
    lift (match Items res with
          | Some items => Ok items
          | None => Raise (KeyError "Items")
          end);
  let posts :=
    fold_left (fun posts item => (posts ++ [to_dict item])%list) scan_result [] in
  let response :=
    {| statusCode := 200; headers := None;
       body := Some (json_dumps (PList posts)) |} in
  ret response.

Definition update (event : event) (context : context) (sys : sys)
  : M S response :=
  (* retrieve the post id from the path parameters *)
  do post_id <- lift (path_parameter event "postId");
  (* Set the default error response *)
  let response :=
    {| statusCode := 500; headers := None;
       body := Some ("An error occurred while updating post " ++ post_id) |} in
  (* extract the event body from the request *)
  let post_str := ev_body event in
  (* convert to json and store in a post variable *)
  do post <- lift (loads post_str);
  (* function to update the post in dynamodb *)
  do content <- lift (getitem post "content");
  do author <- lift (getitem post "author");
  do res <- update_item table_name [("id", AS post_id)]
              (SET [("content", ":c"); ("author", ":a"); ("updatedAt", ":u")])
              [(":c", to_item content);
               (":a", to_item author);
               (":u", to_item (PStr (now_isoformat sys)))]
              "UPDATED_NEW";
  (* If update is successful for post return appropriate response *)
  if (HTTPStatusCode res =? 200)%Z
  then ret {| statusCode := 200; headers := None; body := None |}
  else ret response.

Definition delete (event : event) (context : context) : M S response :=
  (* retrieve the post id from the path parameters *)
  do post_id <- lift (path_parameter event "postId");
  (* Set the default error response *)
  let response :=
    {| statusCode := 500; headers := None;
       body := Some ("An error occurred while deleting post " ++ post_id) |} in
  (* function to delete the post from dynamodb *)
  do res <- delete_item table_name [("id", AS post_id)];
  (* If deletion is successful for post *)
  if (HTTPStatusCode res =? 200)%Z
  then ret {| statusCode := 204; headers := None; body := None |}
  else ret response.
End handler.
End handler.

(** ** The store *)

(** One DynamoDB table with the string partition key [id]: a finite map
    from key to item.  Every well-formed request is answered with HTTP
    status 200; a request without a string [id] key is refused with an
    exception, as boto3 does.  The table name is not looked at, there is
    one table. *)
Module Table.
Abbreviation table := (gmap string item).

Definition answer (it : option attr) (its : option (list attr))
    (attrs : option attr) : ddb_response :=
  {| HTTPStatusCode := 200; Item := it; Items := its; Attributes := attrs |}.

Definition key_id (Key : item) : result string :=
  match Alist.lookup "id" Key with
  | Some (AS k) => Ok k
  | _ => Raise (ClientError "ValidationException")
  end.

(** The rows in the order a scan yields them. *)
Definition rows (tbl : table) : list attr :=
  map (fun kv => AM (snd kv)) (map_to_list tbl).

(** The values the placeholders of a [SET] clause stand for. *)
Fixpoint resolve (assignments : list (string * string)) (values : item)
  : result item :=
  match assignments with
  | [] => Ok []
  | (name, placeholder) :: rest =>
      match Alist.lookup placeholder values, resolve rest values with
      | Some v, Ok vs => Ok ((name, v) :: vs)
      | None, _ => Raise (ClientError "ValidationException")
      | _, Raise e => Raise e
      end
  end.

Definition assign (new : item) (old : item) : item :=
  fold_left (fun it kv => Alist.set (fst kv) (snd kv) it) new old.

Definition put (TableName : string) (Item : attr) : M table ddb_response :=
  fun tbl =>
    match Item with
    | AM m =>
        match key_id m with
        | Ok k => (Ok (answer None None None), <[k := m]> tbl)
        | Raise e => (Raise e, tbl)
        end
    | _ => (Raise (ClientError "ParamValidationError"), tbl)
    end.

Definition fetch (TableName : string) (Key : item) : M table ddb_response :=
  fun tbl =>
    match key_id Key with
    | Ok k => (Ok (answer (AM <$> tbl !! k) None None), tbl)
    | Raise e => (Raise e, tbl)
    end.

Definition scan_all (TableName : string) : M table ddb_response :=
  fun tbl => (Ok (answer None (Some (rows tbl)) None), tbl).

(** An update of an absent key creates the item, holding the key and the
    assigned attributes. *)
Definition modify (TableName : string) (Key : item)
    (UpdateExpression : update_expression)
    (ExpressionAttributeValues : item) (ReturnValues : string)
  : M table ddb_response :=
  fun tbl =>
    match key_id Key, UpdateExpression with
    | Ok k, SET assignments =>
        match resolve assignments ExpressionAttributeValues with
        | Ok new =>
            let old := default Key (tbl !! k) in
            let attrs :=
              if String.eqb ReturnValues "UPDATED_NEW"
              then Some (AM new) else None in
            (Ok (answer None None attrs), <[k := assign new old]> tbl)
        | Raise e => (Raise e, tbl)
        end
    | Raise e, _ => (Raise e, tbl)
    end.

Definition remove (TableName : string) (Key : item) : M table ddb_response :=
  fun tbl =>
    match key_id Key with
    | Ok k => (Ok (answer None None None), delete k tbl)
    | Raise e => (Raise e, tbl)
    end.

#[global] Instance client : DynamoDB table := {|
  put_item := put;
  get_item := fetch;
  scan := scan_all;
  update_item := modify;
  delete_item := remove
|}.
End Table.

(** A service that carries out every request on the table but answers it
    with the status [code]. *)
Definition answering (code : Z) : DynamoDB Table.table :=
  let report (m : M Table.table ddb_response) : M Table.table ddb_response :=
    do r <- m;
    ret {| HTTPStatusCode := code; Item := Item r; Items := Items r;
           Attributes := Attributes r |} in
  {| put_item tn it := report (Table.put tn it);
     get_item tn k := report (Table.fetch tn k);
     scan tn := report (Table.scan_all tn);
     update_item tn k e v r := report (Table.modify tn k e v r);
     delete_item tn k := report (Table.remove tn k) |}.

(** ** A JSON codec *)

(** [json.dumps] and [json.loads] with their default arguments, for the
    sample requests below: on the values of [pyval] and on strings whose
    characters are code points below 256.  [loads] covers the texts that
    denote such values, with integers as the only numbers; a text with a
    fraction, an exponent or a wider [\u] escape is outside its domain and
    read as no value.  The theorems on the handlers do not depend on this
    codec: they hold for every [Json]. *)
Module PyJson.
Definition dquote : ascii := ascii_of_nat 34.
Definition backslash : ascii := ascii_of_nat 92.

Definition str1 (c : ascii) : string := String c EmptyString.

Definition hex_digit (n : nat) : ascii :=
  ascii_of_nat (if (n <? 10)%nat then 48 + n else 87 + n)%nat.

(** One character inside a string literal, [ensure_ascii] on. *)
Definition escape (c : ascii) : string :=
  let n := nat_of_ascii c in
  if Ascii.eqb c dquote then String backslash (str1 dquote)
  else if Ascii.eqb c backslash then String backslash (str1 backslash)
  else if (n =? 10)%nat then String backslash "n"
  else if (n =? 13)%nat then String backslash "r"
  else if (n =? 9)%nat then String backslash "t"
  else if (n =? 8)%nat then String backslash "b"
  else if (n =? 12)%nat then String backslash "f"
  else if ((n <? 32) || (126 <? n))%nat
  then String backslash ("u00" ++ String (hex_digit (n / 16))
                                    (str1 (hex_digit (n mod 16))))
  else str1 c.

Fixpoint escape_all (s : string) : string :=
  match s with
  | EmptyString => EmptyString
  | String c s' => escape c ++ escape_all s'
  end.

Definition quoted (s : string) : string :=
  String dquote (escape_all s ++ str1 dquote).

Fixpoint digits (fuel : nat) (n : N) (acc : string) : string :=
  match fuel with
  | O => acc
  | Datatypes.S fuel' =>
      let acc' := String (ascii_of_N (48 + n mod 10)) acc in
      if (n <? 10)%N then acc' else digits fuel' (n / 10)%N acc'
  end.

Definition decimal (z : Z) : string :=
  let n := Z.to_N (Z.abs z) in
  let ds := digits (Datatypes.S (N.to_nat (N.log2 n))) n EmptyString in
  if (z <? 0)%Z then String "-" ds else ds.

Fixpoint join (sep : string) (l : list string) : string :=
  match l with
  | [] => EmptyString
  | [x] => x
  | x :: l' => x ++ sep ++ join sep l'
  end.

Fixpoint dumps (v : pyval) : string :=
  match v with
  | PNone => "null"
  | PBool true => "true"
  | PBool false => "false"
  | PInt n => decimal n
  | PStr s => quoted s
  | PList l => "[" ++ join ", " (map dumps l) ++ "]"
  | PDict d =>
      "{" ++ join ", " (map (fun kv => quoted (fst kv) ++ ": " ++ dumps (snd kv)) d)
          ++ "}"
  end.

(** *** Reading *)

Definition is_ws (c : ascii) : bool :=
  let n := nat_of_ascii c in
  ((n =? 32) || (n =? 9) || (n =? 10) || (n =? 13))%nat.

Fixpoint skip_ws (s : string) : string :=
  match s with
  | String c s' => if is_ws c then skip_ws s' else s
  | EmptyString => s
  end.

(** [expect w s]: [s] without its prefix [w]. *)
Fixpoint expect (w s : string) : option string :=
  match w, s with
  | EmptyString, _ => Some s
  | String a w', String b s' => if Ascii.eqb a b then expect w' s' else None
  | _, _ => None
  end.

Definition unescape (c : ascii) : option ascii :=
  if Ascii.eqb c dquote then Some dquote
  else if Ascii.eqb c backslash then Some backslash
  else if Ascii.eqb c "/" then Some "/"%char
  else if Ascii.eqb c "n" then Some (ascii_of_nat 10)
  else if Ascii.eqb c "r" then Some (ascii_of_nat 13)
  else if Ascii.eqb c "t" then Some (ascii_of_nat 9)
  else if Ascii.eqb c "b" then Some (ascii_of_nat 8)
  else if Ascii.eqb c "f" then Some (ascii_of_nat 12)
  else None.

Definition hex_value (c : ascii) : option nat :=
  let n := nat_of_ascii c in
  if ((48 <=? n) && (n <=? 57))%nat then Some (n - 48)%nat
  else if ((97 <=? n) && (n <=? 102))%nat then Some (n - 87)%nat
  else if ((65 <=? n) && (n <=? 70))%nat then Some (n - 55)%nat
  else None.

(** The character of the escape [\uXXXX] with the hex digits [h1..h4],
    for a code point below 256. *)
Definition unicode_escape (h1 h2 h3 h4 : ascii) : option ascii :=
  match hex_value h1, hex_value h2, hex_value h3, hex_value h4 with
  | Some 0%nat, Some 0%nat, Some a, Some b => Some (ascii_of_nat (16 * a + b))
  | _, _, _, _ => None
  end.

(** The rest of a string literal, after its opening quote. *)
Fixpoint read_string (s : string) (acc : string) : option (string * string) :=
  match s with
  | EmptyString => None
  | String c s' =>
      if Ascii.eqb c dquote then Some (acc, s')
      else if Ascii.eqb c backslash then
        match s' with
        | String e s'' =>
            if Ascii.eqb e "u" then
              match s'' with
              | String h1 (String h2 (String h3 (String h4 rest))) =>
                  match unicode_escape h1 h2 h3 h4 with
                  | Some c' => read_string rest (acc ++ str1 c')
                  | None => None
                  end
              | _ => None
              end
            else
              match unescape e with
              | Some c' => read_string s'' (acc ++ str1 c')
              | None => None
              end
        | EmptyString => None
        end
      else if (nat_of_ascii c <? 32)%nat then None
      else read_string s' (acc ++ str1 c)
  end.

Definition digit (c : ascii) : option Z :=
  let n := nat_of_ascii c in
  if ((48 <=? n) && (n <=? 57))%nat then Some (Z.of_nat n - 48) else None.

Fixpoint read_digits (s : string) (acc : Z) : Z * string :=
  match s with
  | String c s' =>
      match digit c with
      | Some d => read_digits s' (10 * acc + d)
      | None => (acc, s)
      end
  | EmptyString => (acc, s)
  end.

Definition starts_fraction (s : string) : bool :=
  match s with
  | String c _ => Ascii.eqb c "." || Ascii.eqb c "e" || Ascii.eqb c "E"
  | EmptyString => false
  end.

(** An integer without sign: no leading zero, nothing of a float after it. *)
Definition read_nat (s : string) : option (Z * string) :=
  match s with
  | String c s' =>
      match digit c with
      | Some 0 =>
          match s' with
          | String c' _ =>
              match digit c' with
              | Some _ => None
              | None => if starts_fraction s' then None else Some (0, s')
              end
          | EmptyString => Some (0, s')
          end
      | Some d =>
          let '(n, rest) := read_digits s' d in
          if starts_fraction rest then None else Some (n, rest)
      | None => None
      end
  | EmptyString => None
  end.

Section items.
Variable read_value : string -> option (pyval * string).

(** The elements of an array after the first, up to the bracket. *)
Fixpoint read_elements (fuel : nat) (s : string) (acc : list pyval)
  : option (pyval * string) :=
  match fuel, skip_ws s with
  | Datatypes.S fuel', String c s' =>
      if Ascii.eqb c "]" then Some (PList acc, s')
      else if Ascii.eqb c "," then
        match read_value s' with
        | Some (v, rest) => read_elements fuel' rest (acc ++ [v])%list
        | None => None
        end
      else None
  | _, _ => None
  end.

(** [key : value] *)
Definition read_member (s : string) : option (string * pyval * string) :=
  match skip_ws s with
  | String c s' =>
      if Ascii.eqb c dquote then
        match read_string s' EmptyString with
        | Some (k, rest) =>
            match skip_ws rest with
            | String c' rest' =>
                if Ascii.eqb c' ":" then
                  match read_value rest' with
                  | Some (v, rest'') => Some (k, v, rest'')
                  | None => None
                  end
                else None
            | EmptyString => None
            end
        | None => None
        end
      else None
  | EmptyString => None
  end.

(** The members of an object after the first, up to the brace; a key
    met again keeps its place and takes the later value. *)
Fixpoint read_members (fuel : nat) (s : string)
    (acc : list (string * pyval)) : option (pyval * string) :=
  match fuel, skip_ws s with
  | Datatypes.S fuel', String c s' =>
      if Ascii.eqb c "}" then Some (PDict acc, s')
      else if Ascii.eqb c "," then
        match read_member s' with
        | Some (k, v, rest) => read_members fuel' rest (Alist.set k v acc)
        | None => None
        end
      else None
  | _, _ => None
  end.
End items.

Fixpoint read_value (fuel : nat) (s : string) : option (pyval * string) :=
  match fuel, skip_ws s with
  | Datatypes.S fuel', String c s' =>
      if Ascii.eqb c "n" then (fun r => (PNone, r)) <$> expect "ull" s'
      else if Ascii.eqb c "t" then (fun r => (PBool true, r)) <$> expect "rue" s'
      else if Ascii.eqb c "f" then (fun r => (PBool false, r)) <$> expect "alse" s'
      else if Ascii.eqb c dquote then
        (fun sr => (PStr (fst sr), snd sr)) <$> read_string s' EmptyString
      else if Ascii.eqb c "-" then
        (fun nr => (PInt (- fst nr), snd nr)) <$> read_nat s'
      else if Ascii.eqb c "[" then
        match skip_ws s' with
        | String c' s'' =>
            if Ascii.eqb c' "]" then Some (PList [], s'')
            else
              match read_value fuel' s' with
              | Some (v, rest) =>
                  read_elements (read_value fuel') fuel' rest [v]
              | None => None
              end
        | EmptyString => None
        end
      else if Ascii.eqb c "{" then
        match skip_ws s' with
        | String c' s'' =>
            if Ascii.eqb c' "}" then Some (PDict [], s'')
            else
              match read_member (read_value fuel') s' with
              | Some (k, v, rest) =>
                  read_members (read_value fuel') fuel' rest [(k, v)]
              | None => None
              end
        | EmptyString => None
        end
      else (fun nr => (PInt (fst nr), snd nr)) <$> read_nat (String c s')
  | _, _ => None
  end.

Definition loads (s : string) : option pyval :=
  match read_value (Datatypes.S (String.length s)) s with
  | Some (v, rest) =>
      match skip_ws rest with
      | EmptyString => Some v
      | _ => None
      end
  | None => None
  end.

Definition codec : Json := {|
  json_loads := loads;
  json_dumps := dumps
|}.
End PyJson.


(** ** Sample requests *)

Module Sample.
Definition table_name : string := "posts".

Definition clock : sys :=
  {| now_isoformat := "2024-05-01T12:30:00.250000";
     uuid4 := "0b0e7c1a-5a43-4f9e-9d0c-2f6b1c3d4e5f" |}.

(** A request with the body [v], serialized by the client. *)
Definition posting (v : pyval) : event :=
  {| ev_body := Some (PyJson.dumps v); ev_pathParameters := None |}.

(** A request for the post [k], without and with a body. *)
Definition naming (k : string) : event :=
  {| ev_body := None; ev_pathParameters := Some [("postId", k)] |}.

Definition putting (k : string) (v : pyval) : event :=
  {| ev_body := Some (PyJson.dumps v);
     ev_pathParameters := Some [("postId", k)] |}.

Definition hello : pyval :=
  PDict [("content", PStr "hello"); ("author", PStr "alice")].

Definition world : pyval :=
  PDict [("content", PStr "world"); ("author", PStr "alice");
         ("id", PStr "forged")].

(** A stored post and a table that holds it among others. *)
Definition stored : item :=
  [("content", AS "hello"); ("author", AS "alice");
   ("createdAt", AS "2024-04-30T08:00:00.000000"); ("id", AS "p1")].

Definition other : item :=
  [("content", AS "bye"); ("author", AS "bob");
   ("createdAt", AS "2024-04-30T09:00:00.000000"); ("id", AS "p2")].

Definition one : Table.table := {[ "p1" := stored ]}.
Definition two : Table.table := <["p2" := other]> one.
End Sample.

(** ** Clients for observing the handlers *)

(** A call of the client, with the arguments the handler gave it. *)
Inductive call : Type :=
  | PutItem (TableName : string) (Item : attr)
  | GetItem (TableName : string) (Key : item)
  | Scan (TableName : string)
  | UpdateItem (TableName : string) (Key : item)
      (UpdateExpression : update_expression)
      (ExpressionAttributeValues : item) (ReturnValues : string)
  | DeleteItem (TableName : string) (Key : item).

(** Runs [m] on the client below and notes the call [c] in the log. *)
Definition logged {S : Type} (c : call) (m : M S ddb_response)
  : M (list call * S) ddb_response :=
  fun ls =>
    match m (snd ls) with
    | (r, s') => (r, ((fst ls ++ [c])%list, s'))
    end.

(** A client that keeps the log of the calls made to the client below it. *)
Definition logging {S : Type} `{DynamoDB S} : DynamoDB (list call * S) :=
  {| put_item tn it := logged (PutItem tn it) (put_item tn it);
     get_item tn k := logged (GetItem tn k) (get_item tn k);
     scan tn := logged (Scan tn) (scan tn);
     update_item tn k e v r :=
       logged (UpdateItem tn k e v r) (update_item tn k e v r);
     delete_item tn k := logged (DeleteItem tn k) (delete_item tn k) |}.

(** A service that refuses every request with the error [code] and leaves
    the table alone. *)
Definition refusing (code : string) : DynamoDB Table.table :=
  let refuse : M Table.table ddb_response :=
    fun tbl => (Raise (ClientError code), tbl) in
  {| put_item tn it := refuse;
     get_item tn k := refuse;
     scan tn := refuse;
     update_item tn k e v r := refuse;
     delete_item tn k := refuse |}.

(** ** What the handlers hand to the store *)

(** A computation returns when it does not raise. *)
Definition returns {S A : Type} (m : M S A) (s : S) : Prop :=
  exists a s', m s = (Ok a, s').

(** The record [create] hands to [to_item]. *)
Definition created (sy : sys) (d : list (string * pyval)) : pyval :=
  PDict (Alist.set "id" (PStr (uuid4 sy))
           (Alist.set "createdAt" (PStr (now_isoformat sy)) d)).

(** Its attributes in the store's representation. *)
Definition created_item (sy : sys) (d : list (string * pyval)) : item :=
  map (fun kv => (fst kv, to_item (snd kv)))
    (Alist.set "id" (PStr (uuid4 sy))
       (Alist.set "createdAt" (PStr (now_isoformat sy)) d)).

(** The one [update_item] call of [update]. *)
Definition updating {S : Type} `{DynamoDB S} (table_name k : string) (sy : sys)
    (content author : pyval) : M S ddb_response :=
  update_item table_name [("id", AS k)]
    (SET [("content", ":c"); ("author", ":a"); ("updatedAt", ":u")])
    [(":c", to_item content); (":a", to_item author);
     (":u", AS (now_isoformat sy))]
    "UPDATED_NEW".

(** The item that call leaves in the table in place of [old]. *)
Definition updated_item (sy : sys) (content author : pyval) (old : item) : item :=
  Table.assign [("content", to_item content); ("author", to_item author);
                ("updatedAt", AS (now_isoformat sy))] old.

(** The headers of a found post. *)
Definition json_headers : option (list (string * string)) :=
  Some [("Content-Type", "application/json")].

(** Unfolds a handler down to the calls of its collaborators. *)
Ltac run_handler :=
  unfold handler.create, handler.get, handler.all, handler.update,
    handler.delete, bind, lift, ret, loads, getitem, setitem;
  cbn beta iota zeta.

(** ** Marshaling round trips *)

Lemma to_dict_to_item (v : pyval) : to_dict (to_item v) = v.
Proof.
  induction v as [ | | | | l IH | d IH ] using pyval_deep_ind; simpl; try done.
  - f_equal. rewrite map_map. induction IH as [ | x l Hx _ IHl ]; simpl; [done | ].
    by rewrite Hx, IHl.
  - f_equal. rewrite map_map.
    induction IH as [ | [k x] d Hx _ IHd ]; simpl in *; [done | ].
    by rewrite Hx, IHd.
Qed.

Lemma to_item_to_dict (a : attr) : to_item (to_dict a) = a.
Proof.
  induction a as [ | | | | l IH | m IH ] using attr_deep_ind; simpl; try done.
  - f_equal. rewrite map_map. induction IH as [ | x l Hx _ IHl ]; simpl; [done | ].
    by rewrite Hx, IHl.
  - f_equal. rewrite map_map.
    induction IH as [ | [k x] m Hx _ IHm ]; simpl in *; [done | ].
    by rewrite Hx, IHm.
Qed.

(** ** Mappings *)

Section alist_facts.
Context {V : Type}.
Implicit Types (d : list (string * V)) (k : string) (v : V).

Lemma lookup_set k k' v d :
  Alist.lookup k (Alist.set k' v d)
  = if String.eqb k k' then Some v else Alist.lookup k d.
Proof.
  induction d as [ | [k0 v0] d IH ]; simpl.
  - by destruct (String.eqb k k').
  - destruct (String.eqb k' k0) eqn:E0; simpl.
    + apply String.eqb_eq in E0 as ->.
      by destruct (String.eqb k k0).
    + rewrite IH. destruct (String.eqb k k0) eqn:E1; [ | done ].
      apply String.eqb_eq in E1 as ->.
      by rewrite String.eqb_sym, E0.
Qed.

Lemma lookup_set_eq k v d : Alist.lookup k (Alist.set k v d) = Some v.
Proof. by rewrite lookup_set, String.eqb_refl. Qed.

Lemma lookup_set_ne k k' v d :
  k <> k' -> Alist.lookup k (Alist.set k' v d) = Alist.lookup k d.
Proof.
  intros Hne. rewrite lookup_set.
  by apply String.eqb_neq in Hne as ->.
Qed.

Lemma lookup_map {W : Type} (f : V -> W) k d :
  Alist.lookup k (map (fun kv => (fst kv, f (snd kv))) d)
  = f <$> Alist.lookup k d.
Proof.
  induction d as [ | [k0 v0] d IH ]; simpl; [done | ].
  by destruct (String.eqb k k0).
Qed.
End alist_facts.

(** Keys of a mapping.  A Python [dict] binds a key once. *)
Section key_facts.
Context {V : Type}.
Implicit Types (d : list (string * V)) (k : string) (v : V).

Lemma keys_map {W : Type} (f : V -> W) d :
  map fst (map (fun kv => (fst kv, f (snd kv))) d) = map fst d.
Proof. induction d as [ | [k0 v0] d IH ]; simpl; [done | by rewrite IH]. Qed.

Lemma set_keys k v d x :
  x ∈ map fst (Alist.set k v d) -> x = k \/ x ∈ map fst d.
Proof.
  induction d as [ | [k0 v0] d IH ]; simpl.
  - intros Hx. apply list_elem_of_singleton in Hx. by left.
  - destruct (String.eqb k k0) eqn:E; simpl.
    + apply String.eqb_eq in E as ->. by right.
    + intros Hx. apply elem_of_cons in Hx as [-> | Hx].
      * right. apply elem_of_cons. by left.
      * destruct (IH Hx) as [-> | Hin]; [ by left | ].
        right. apply elem_of_cons. by right.
Qed.

(** An assignment keeps every key bound once. *)
Lemma set_NoDup k v d :
  NoDup (map fst d) -> NoDup (map fst (Alist.set k v d)).
Proof.
  induction d as [ | [k0 v0] d IH ]; simpl.
  - intros _. apply NoDup_singleton.
  - intros Hnd. apply NoDup_cons in Hnd as [Hk0 Hnd].
    destruct (String.eqb k k0) eqn:E; simpl.
    + apply String.eqb_eq in E as ->. by apply NoDup_cons.
    + apply NoDup_cons. split; [ | by apply IH ].
      intros Hx. destruct (set_keys _ _ _ _ Hx) as [-> | Hin]; [ | done ].
      by rewrite String.eqb_refl in E.
Qed.

(** Where keys are bound once, what is bound is what [lookup] finds. *)
Lemma elem_of_lookup k v d :
  NoDup (map fst d) -> (k, v) ∈ d -> Alist.lookup k d = Some v.
Proof.
  induction d as [ | [k0 v0] d IH ]; simpl.
  - intros _ Hin. by apply elem_of_nil in Hin.
  - intros Hnd Hin. apply NoDup_cons in Hnd as [Hk0 Hnd].
    apply elem_of_cons in Hin as [[= -> ->] | Hin].
    + by rewrite String.eqb_refl.
    + destruct (String.eqb k k0) eqn:E; [ | by apply IH ].
      apply String.eqb_eq in E as ->. destruct Hk0.
      change k0 with (fst (k0, v)). by apply list_elem_of_fmap_2.
Qed.

Lemma lookup_elem_of k v d : Alist.lookup k d = Some v -> (k, v) ∈ d.
Proof.
  induction d as [ | [k0 v0] d IH ]; simpl; [done | ].
  destruct (String.eqb k k0) eqn:E.
  - apply String.eqb_eq in E as ->. intros [= ->]. apply elem_of_cons. by left.
  - intros Hl. apply elem_of_cons. right. by apply IH.
Qed.
End key_facts.

(** The loop of [all] builds the list of converted items. *)
Lemma append_loop {A B : Type} (f : A -> B) (l : list A) (acc : list B) :
  fold_left (fun posts x => (posts ++ [f x])%list) l acc = (acc ++ map f l)%list.
Proof.
  revert acc. induction l as [ | x l IH ]; intros acc; simpl.
  - by rewrite app_nil_r.
  - by rewrite IH, <- app_assoc.
Qed.

Lemma rows_length (tbl : gmap string item) :
  length (Table.rows tbl) = size tbl.
Proof. unfold Table.rows. by rewrite length_map, length_map_to_list. Qed.

(** ** The handlers against any client *)

Section any_client.
Context `{Json} {S : Type} `{DynamoDB S}.
Variable table_name : string.
Implicit Types (ev : event) (cx : context) (sy : sys) (s : S).

Lemma create_run ev cx sy s str d :
  ev_body ev = Some str -> json_loads str = Some (PDict d) ->
  handler.create table_name ev cx sy s
  = match put_item table_name (to_item (created sy d)) s with
    | (Ok res, s') =>
        (Ok (if (HTTPStatusCode res =? 200)%Z
             then {| statusCode := 201; headers := None; body := None |}
             else {| statusCode := 500; headers := None;
                     body := Some "An error occurred while creating post." |}),
         s')
    | (Raise e, s') => (Raise e, s')
    end.
Proof.
  intros Hb Hp. run_handler. rewrite Hb, Hp.
  unfold created. destruct (put_item _ _ s) as [[res | e] s']; [ | done ].
  by destruct (HTTPStatusCode res =? 200)%Z.
Qed.

(** Without a body that parses to an object [create] raises before it
    reaches the store. *)
Lemma create_raises ev cx sy s :
  (forall str d, ev_body ev = Some str -> json_loads str <> Some (PDict d)) ->
  exists e, handler.create table_name ev cx sy s = (Raise e, s).
Proof.
  intros Hno. run_handler.
  destruct (ev_body ev) as [str | ] eqn:Hb; [ | by eexists ].
  destruct (json_loads str) as [v | ] eqn:Hp; [ | by eexists ].
  destruct v; try by eexists.
  by destruct (Hno str d).
Qed.

Lemma get_run ev cx s k :
  path_parameter ev "postId" = Ok k ->
  handler.get table_name ev cx s
  = match get_item table_name [("id", AS k)] s with
    | (Ok res, s') =>
        (Ok match Item res with
            | Some post =>
                {| statusCode := 200;
                   headers := Some [("Content-Type", "application/json")];
                   body := Some (json_dumps (to_dict post)) |}
            | None =>
                {| statusCode := 500; headers := None;
                   body := Some "An error occurred while getting post." |}
            end, s')
    | (Raise e, s') => (Raise e, s')
    end.
Proof.
  intros Hk. run_handler. rewrite Hk.
  destruct (get_item _ _ s) as [[res | e] s']; [ | done ].
  by destruct (Item res).
Qed.

Lemma all_run ev cx s :
  handler.all table_name ev cx s
  = match scan table_name s with
    | (Ok res, s') =>
        match Items res with
        | Some items =>
            (Ok {| statusCode := 200; headers := None;
                   body := Some (json_dumps (PList (map to_dict items))) |},
             s')
        | None => (Raise (KeyError "Items"), s')
        end
    | (Raise e, s') => (Raise e, s')
    end.
Proof.
  run_handler. destruct (scan _ s) as [[res | e] s']; [ | done ].
  destruct (Items res) as [items | ]; [ | done ].
  by rewrite append_loop.
Qed.

(** Whatever the scan answers, an envelope that [all] returns has status
  200: the 500 default is overwritten on every path. *)
Lemma all_never_500 ev cx s resp s' :
handler.all table_name ev cx s = (Ok resp, s') -> statusCode resp = 200.
Proof.
rewrite all_run. destruct (scan _ s) as [[res | e] s0]; [ | done ].
destruct (Items res); [ | done ]. by intros [= <- _].
Qed.

Lemma update_run ev cx sy s k str d content author :
  path_parameter ev "postId" = Ok k ->
  ev_body ev = Some str -> json_loads str = Some (PDict d) ->
  Alist.lookup "content" d = Some content ->
  Alist.lookup "author" d = Some author ->
  handler.update table_name ev cx sy s
  = match updating table_name k sy content author s with
    | (Ok res, s') =>
        (Ok (if (HTTPStatusCode res =? 200)%Z
             then {| statusCode := 200; headers := None; body := None |}
             else {| statusCode := 500; headers := None;
                     body := Some ("An error occurred while updating post "
                                   ++ k) |}),
         s')
    | (Raise e, s') => (Raise e, s')
    end.
Proof.
  intros Hk Hb Hp Hc Ha. run_handler. rewrite Hk, Hb, Hp, Hc, Ha.
  unfold updating. cbn [to_item].
  destruct (update_item _ _ _ _ _ s) as [[res | e] s']; [ | done ].
  by destruct (HTTPStatusCode res =? 200)%Z.
Qed.

Lemma delete_run ev cx s k :
  path_parameter ev "postId" = Ok k ->
  handler.delete table_name ev cx s
  = match delete_item table_name [("id", AS k)] s with
    | (Ok res, s') =>
        (Ok (if (HTTPStatusCode res =? 200)%Z
             then {| statusCode := 204; headers := None; body := None |}
             else {| statusCode := 500; headers := None;
                     body := Some ("An error occurred while deleting post "
                                   ++ k) |}),
         s')
    | (Raise e, s') => (Raise e, s')
    end.
Proof.
  intros Hk. run_handler. rewrite Hk.
  destruct (delete_item _ _ s) as [[res | e] s']; [ | done ].
  by destruct (HTTPStatusCode res =? 200)%Z.
Qed.

(** Without the path parameter [get] and [delete] raise at once. *)
Lemma get_raises ev cx s e :
  path_parameter ev "postId" = Raise e ->
  handler.get table_name ev cx s = (Raise e, s).
Proof. intros Hk. run_handler. by rewrite Hk. Qed.

Lemma delete_raises ev cx s e :
  path_parameter ev "postId" = Raise e ->
  handler.delete table_name ev cx s = (Raise e, s).
Proof. intros Hk. run_handler. by rewrite Hk. Qed.
End any_client.

(** ** The handlers against the table *)

Section on_table.
Context `{Json}.
Variable table_name : string.
Implicit Types (ev : event) (cx : context) (sy : sys) (tbl : gmap string item).

Lemma created_item_lookup sy d k :
  Alist.lookup k (created_item sy d)
  = if String.eqb k "id" then Some (AS (uuid4 sy))
    else if String.eqb k "createdAt" then Some (AS (now_isoformat sy))
    else to_item <$> Alist.lookup k d.
Proof.
  unfold created_item. rewrite lookup_map, !lookup_set.
  destruct (String.eqb k "id"); [done | ].
  by destruct (String.eqb k "createdAt").
Qed.

Lemma put_created sy d tbl :
  put_item table_name (to_item (created sy d)) tbl
  = (Ok (Table.answer None None None), <[uuid4 sy := created_item sy d]> tbl).
Proof.
  cbn [put_item Table.client]. unfold Table.put, created. cbn [to_item].
  fold (created_item sy d). unfold Table.key_id.
  by rewrite created_item_lookup.
Qed.

Lemma create_on_table ev cx sy tbl str d :
  ev_body ev = Some str -> json_loads str = Some (PDict d) ->
  handler.create table_name ev cx sy tbl
  = (Ok {| statusCode := 201; headers := None; body := None |},
     <[uuid4 sy := created_item sy d]> tbl).
Proof.
  intros Hb Hp. by rewrite (create_run _ _ _ _ _ _ d Hb Hp), put_created.
Qed.

Lemma get_on_table ev cx tbl k :
  path_parameter ev "postId" = Ok k ->
  handler.get table_name ev cx tbl
  = (Ok match tbl !! k with
        | Some m =>
            {| statusCode := 200;
               headers := Some [("Content-Type", "application/json")];
               body := Some (json_dumps (to_dict (AM m))) |}
        | None =>
            {| statusCode := 500; headers := None;
               body := Some "An error occurred while getting post." |}
        end, tbl).
Proof.
  intros Hk. rewrite (get_run _ _ _ _ k Hk).
  cbn [get_item Table.client]. unfold Table.fetch. cbn.
  by destruct (tbl !! k).
Qed.

Lemma update_on_table ev cx sy tbl k str d content author :
  path_parameter ev "postId" = Ok k ->
  ev_body ev = Some str -> json_loads str = Some (PDict d) ->
  Alist.lookup "content" d = Some content ->
  Alist.lookup "author" d = Some author ->
  handler.update table_name ev cx sy tbl
  = (Ok {| statusCode := 200; headers := None; body := None |},
     <[k := updated_item sy content author
              (default [("id", AS k)] (tbl !! k))]> tbl).
Proof.
  intros Hk Hb Hp Hc Ha.
  by rewrite (update_run _ _ _ _ _ k str d content author Hk Hb Hp Hc Ha).
Qed.

Lemma updated_item_lookup sy content author old n :
  Alist.lookup n (updated_item sy content author old)
  = if String.eqb n "updatedAt" then Some (AS (now_isoformat sy))
    else if String.eqb n "author" then Some (to_item author)
    else if String.eqb n "content" then Some (to_item content)
    else Alist.lookup n old.
Proof.
  unfold updated_item, Table.assign. cbn [fold_left fst snd].
  by rewrite !lookup_set.
Qed.

Lemma delete_on_table ev cx tbl k :
  path_parameter ev "postId" = Ok k ->
  handler.delete table_name ev cx tbl
  = (Ok {| statusCode := 204; headers := None; body := None |},
     delete k tbl).
Proof. intros Hk. by rewrite (delete_run _ _ _ _ k Hk). Qed.

Lemma all_on_table ev cx tbl :
  handler.all table_name ev cx tbl
  = (Ok {| statusCode := 200; headers := None;
           body := Some (json_dumps (PList (map to_dict (Table.rows tbl)))) |},
     tbl).
Proof. by rewrite all_run. Qed.
End on_table.

(** ** The claims of the specification *)

(** C1.  A get with the id of a post that a successful create has just
    written returns status 200 and, as its body, the serialization of the
    created record: what was written through [to_item] is read back through
    [to_dict] unchanged, and that round trip preserves every value. *)
Theorem get_after_create `{Json} (table_name : string) (ev ev' : event)
    (cx cx' : context) (sy : sys) (tbl : gmap string item) (str : string)
    (d : list (string * pyval)) :
  ev_body ev = Some str -> json_loads str = Some (PDict d) ->
  path_parameter ev' "postId" = Ok (uuid4 sy) ->
  exists tbl',
    handler.create table_name ev cx sy tbl
    = (Ok {| statusCode := 201; headers := None; body := None |}, tbl')
    /\ handler.get table_name ev' cx' tbl'
       = (Ok {| statusCode := 200; headers := json_headers;
                body := Some (json_dumps (created sy d)) |}, tbl')
    /\ forall v, to_dict (to_item v) = v.
Proof.
  intros Hb Hp Hk. eexists.
  split; [ exact (create_on_table _ _ _ _ _ _ _ Hb Hp) | ].
  split; [ | apply to_dict_to_item ].
  rewrite (get_on_table _ _ _ _ _ Hk), lookup_insert_eq.
  change (AM (created_item sy d)) with (to_item (created sy d)).
  by rewrite to_dict_to_item.
Qed.

(** C2.  The record create writes has [id] set to the generated UUID and
    [createdAt] set to the current time; both are assigned after the body
    is parsed, so whatever the body holds under these two names is
    overwritten and is not in what the store receives: the written item
    binds every name once, [id] and [createdAt] to the server's values and
    every other name to the client's value.  The parsed body is a [dict],
    which binds a key once. *)
Theorem create_assigns_id_and_createdAt `{Json} (table_name : string)
    (ev : event) (cx : context) (sy : sys) (tbl : gmap string item)
    (str : string) (d : list (string * pyval)) :
  ev_body ev = Some str -> json_loads str = Some (PDict d) ->
  NoDup (map fst d) ->
  exists m,
    to_item (created sy d) = AM m
    /\ snd (handler.create table_name ev cx sy tbl) = <[uuid4 sy := m]> tbl
    /\ Alist.lookup "id" m = Some (AS (uuid4 sy))
    /\ Alist.lookup "createdAt" m = Some (AS (now_isoformat sy))
    /\ (forall k, k <> "id" -> k <> "createdAt" ->
          Alist.lookup k m = to_item <$> Alist.lookup k d)
    /\ NoDup (map fst m)
    /\ (forall v, ("id", v) ∈ m -> v = AS (uuid4 sy))
    /\ (forall v, ("createdAt", v) ∈ m -> v = AS (now_isoformat sy))
    /\ (forall k v, (k, v) ∈ m -> k <> "id" -> k <> "createdAt" ->
          exists x, (k, x) ∈ d /\ v = to_item x).
Proof.
  intros Hb Hp Hnd. exists (created_item sy d).
  rewrite (create_on_table _ _ _ _ _ _ _ Hb Hp).
  assert (Hm : NoDup (map fst (created_item sy d))).
  { unfold created_item. rewrite keys_map. by do 2 apply set_NoDup. }
  assert (Hother : forall k, k <> "id" -> k <> "createdAt" ->
            Alist.lookup k (created_item sy d) = to_item <$> Alist.lookup k d).
  { intros k Hid Hca. rewrite created_item_lookup.
    by apply String.eqb_neq in Hid as ->; apply String.eqb_neq in Hca as ->. }
  do 2 (split; [ done | ]).
  do 2 (split; [ by rewrite created_item_lookup | ]).
  do 2 (split; [ done | ]).
  split; [ | split ].
  - intros v Hin. apply (elem_of_lookup _ _ _ Hm) in Hin.
    rewrite created_item_lookup in Hin. by injection Hin as <-.
  - intros v Hin. apply (elem_of_lookup _ _ _ Hm) in Hin.
    rewrite created_item_lookup in Hin. by injection Hin as <-.
  - intros k v Hin Hid Hca. apply (elem_of_lookup _ _ _ Hm) in Hin.
    rewrite (Hother k Hid Hca) in Hin.
    destruct (Alist.lookup k d) as [x | ] eqn:Hx; [ | done ].
    injection Hin as <-. exists x. split; [ | done ].
    by apply lookup_elem_of.
Qed.

(** C3.  A get with a postId path parameter returns status 200, the JSON
    content type and the serialization of the stored record converted by
    [to_dict] when the store holds a record with that id, and the generic
    500 envelope with the fixed message when it holds none. *)
Theorem get_found_or_generic_500 `{Json} (table_name : string) (ev : event)
    (cx : context) (tbl : gmap string item) (k : string) :
  path_parameter ev "postId" = Ok k ->
  (forall m, tbl !! k = Some m ->
     handler.get table_name ev cx tbl
     = (Ok {| statusCode := 200; headers := json_headers;
              body := Some (json_dumps (to_dict (AM m))) |}, tbl))
  /\ (tbl !! k = None ->
      handler.get table_name ev cx tbl
      = (Ok {| statusCode := 500; headers := None;
               body := Some "An error occurred while getting post." |}, tbl)).
Proof.
  intros Hk. rewrite (get_on_table _ _ _ _ _ Hk).
  split; [ intros m Hm | intros Hm ]; by rewrite Hm.
Qed.

(** C4, as the code has it.  No handler catches anything: an operation
    returns an envelope exactly when each step before the store call
    succeeds (the path parameter is there where one is read, the body is a
    string that parses to an object, for update one that has [content] and
    [author]) and the store call itself returns (for [all], with [Items] in
    its response); every other failure leaves the handler as the exception
    it is. *)
Theorem handlers_return_exactly_when `{Json} {S : Type} `{DynamoDB S}
    (table_name : string) (ev : event) (cx : context) (sy : sys) (s : S) :
  (returns (handler.create table_name ev cx sy) s <->
     exists str d, ev_body ev = Some str /\ json_loads str = Some (PDict d)
       /\ returns (put_item table_name (to_item (created sy d))) s)
  /\ (returns (handler.get table_name ev cx) s <->
        exists k, path_parameter ev "postId" = Ok k
          /\ returns (get_item table_name [("id", AS k)]) s)
  /\ (returns (handler.all table_name ev cx) s <->
        exists res s', scan table_name s = (Ok res, s') /\ is_Some (Items res))
  /\ (returns (handler.update table_name ev cx sy) s <->
        exists k str d content author,
          path_parameter ev "postId" = Ok k /\ ev_body ev = Some str
          /\ json_loads str = Some (PDict d)
          /\ Alist.lookup "content" d = Some content
          /\ Alist.lookup "author" d = Some author
          /\ returns (updating table_name k sy content author) s)
  /\ (returns (handler.delete table_name ev cx) s <->
        exists k, path_parameter ev "postId" = Ok k
          /\ returns (delete_item table_name [("id", AS k)]) s).
Proof.
  unfold returns. repeat apply conj.
  - (* create *)
    intros (a & s' & Hr). revert Hr. run_handler.
    destruct (ev_body ev) as [str | ] eqn:Hb; [ | done ].
    destruct (json_loads str) as [[ | | | | | d] | ] eqn:Hp; try done.
    destruct (put_item _ _ s) as [[res | e] s0] eqn:Hput; [ | done ].
    intros _. exists str, d. do 2 (split; [done | ]). by exists res, s0.
  - intros (str & d & Hb & Hp & res & s' & Hput).
    rewrite (create_run _ _ _ _ _ _ d Hb Hp), Hput. by eexists _, _.
  - (* get *)
    intros (a & s' & Hr). revert Hr. run_handler.
    destruct (path_parameter ev "postId") as [k | e] eqn:Hk; [ | done ].
    destruct (get_item _ _ s) as [[res | e] s0] eqn:Hget; [ | done ].
    intros _. exists k. split; [done | ]. by exists res, s0.
  - intros (k & Hk & res & s' & Hget).
    rewrite (get_run _ _ _ _ k Hk), Hget. by eexists _, _.
  - (* all *)
    intros (a & s' & Hr). revert Hr. rewrite all_run.
    destruct (scan _ s) as [[res | e] s0]; [ | done ].
    destruct (Items res) as [items | ] eqn:Hits; [ | done ].
    intros _. exists res, s0. by rewrite Hits.
  - intros (res & s' & Hscan & items & Hits).
    rewrite all_run, Hscan, Hits. by eexists _, _.
  - (* update *)
    intros (a & s' & Hr). revert Hr. run_handler.
    destruct (path_parameter ev "postId") as [k | e] eqn:Hk; [ | done ].
    destruct (ev_body ev) as [str | ] eqn:Hb; [ | done ].
    destruct (json_loads str) as [[ | | | | | d] | ] eqn:Hp; try done.
    destruct (Alist.lookup "content" d) as [content | ] eqn:Hc; [ | done ].
    destruct (Alist.lookup "author" d) as [author | ] eqn:Ha; [ | done ].
    destruct (update_item _ _ _ _ _ s) as [[res | e] s0] eqn:Hupd; [ | done ].
    intros _. exists k, str, d, content, author.
    do 5 (split; [done | ]). by exists res, s0.
  - intros (k & str & d & content & author & Hk & Hb & Hp & Hc & Ha
            & res & s' & Hupd).
    rewrite (update_run _ _ _ _ _ k str d content author Hk Hb Hp Hc Ha), Hupd.
    by eexists _, _.
  - (* delete *)
    intros (a & s' & Hr). revert Hr. run_handler.
    destruct (path_parameter ev "postId") as [k | e] eqn:Hk; [ | done ].
    destruct (delete_item _ _ s) as [[res | e] s0] eqn:Hdel; [ | done ].
    intros _. exists k. split; [done | ]. by exists res, s0.
  - intros (k & Hk & res & s' & Hdel).
    rewrite (delete_run _ _ _ _ k Hk), Hdel. by eexists _, _.
Qed.

(** The three handlers that look at the status answer a status other than
    200 with their 500 envelope. *)
Lemma checked_handlers_report_500 `{Json} {S : Type} `{DynamoDB S}
    (table_name : string) (ev : event) (cx : context) (sy : sys) (s s' : S)
    (res : ddb_response) :
  HTTPStatusCode res <> 200 ->
  (forall str d,
      ev_body ev = Some str -> json_loads str = Some (PDict d) ->
      put_item table_name (to_item (created sy d)) s = (Ok res, s') ->
      handler.create table_name ev cx sy s
      = (Ok {| statusCode := 500; headers := None;
               body := Some "An error occurred while creating post." |}, s'))
  /\ (forall k str d content author,
        path_parameter ev "postId" = Ok k -> ev_body ev = Some str ->
        json_loads str = Some (PDict d) ->
        Alist.lookup "content" d = Some content ->
        Alist.lookup "author" d = Some author ->
        updating table_name k sy content author s = (Ok res, s') ->
        handler.update table_name ev cx sy s
        = (Ok {| statusCode := 500; headers := None;
                 body := Some ("An error occurred while updating post " ++ k) |},
           s'))
  /\ (forall k,
        path_parameter ev "postId" = Ok k ->
        delete_item table_name [("id", AS k)] s = (Ok res, s') ->
        handler.delete table_name ev cx s
        = (Ok {| statusCode := 500; headers := None;
                 body := Some ("An error occurred while deleting post " ++ k) |},
           s')).
Proof.
  intros Hcode. apply Z.eqb_neq in Hcode. repeat split.
  - intros str d Hb Hp Hput.
    by rewrite (create_run _ _ _ _ _ _ d Hb Hp), Hput, Hcode.
  - intros k str d content author Hk Hb Hp Hc Ha Hupd.
    by rewrite (update_run _ _ _ _ _ k str d content author Hk Hb Hp Hc Ha),
      Hupd, Hcode.
  - intros k Hk Hdel. by rewrite (delete_run _ _ _ _ k Hk), Hdel, Hcode.
Qed.


(** [all] does not look at the status of the scan: on a service that
    answers with any status [code] it returns status 200 and the
    serialized rows. *)
Lemma all_ignores_scan_status `{Json} (table_name : string) (ev : event)
    (cx : context) (code : Z) (tbl : gmap string item) :
  @handler.all _ _ (answering code) table_name ev cx tbl
  = (Ok {| statusCode := 200; headers := None;
           body := Some (json_dumps (PList (map to_dict (Table.rows tbl)))) |},
     tbl).
Proof. by rewrite all_run. Qed.

(** C6.  An update of a stored record sets [content], [author] and
    [updatedAt] and nothing else: every other attribute of the record, [id]
    and [createdAt] among them, and every other record keep their values,
    and a body that agrees on [content] and [author] has the same effect
    whatever else it holds. *)
Theorem update_touches_three_attributes `{Json} (table_name : string)
    (ev : event) (cx : context) (sy : sys) (tbl : gmap string item)
    (k str : string) (d : list (string * pyval)) (content author : pyval)
    (old : item) :
  path_parameter ev "postId" = Ok k ->
  ev_body ev = Some str -> json_loads str = Some (PDict d) ->
  Alist.lookup "content" d = Some content ->
  Alist.lookup "author" d = Some author ->
  tbl !! k = Some old ->
  exists new,
    handler.update table_name ev cx sy tbl
    = (Ok {| statusCode := 200; headers := None; body := None |},
       <[k := new]> tbl)
    /\ Alist.lookup "content" new = Some (to_item content)
    /\ Alist.lookup "author" new = Some (to_item author)
    /\ Alist.lookup "updatedAt" new = Some (AS (now_isoformat sy))
    /\ (forall n, n <> "content" -> n <> "author" -> n <> "updatedAt" ->
          Alist.lookup n new = Alist.lookup n old)
    /\ (forall k', k' <> k -> <[k := new]> tbl !! k' = tbl !! k')
    /\ (forall ev2 str2 d2,
          path_parameter ev2 "postId" = Ok k ->
          ev_body ev2 = Some str2 -> json_loads str2 = Some (PDict d2) ->
          Alist.lookup "content" d2 = Some content ->
          Alist.lookup "author" d2 = Some author ->
          handler.update table_name ev2 cx sy tbl
          = handler.update table_name ev cx sy tbl).
Proof.
  intros Hk Hb Hp Hc Ha Hold.
  pose proof (update_on_table table_name ev cx sy tbl k str d content author
                Hk Hb Hp Hc Ha) as Hrun.
  rewrite Hold in Hrun. cbn [default] in Hrun.
  exists (updated_item sy content author old).
  split; [done | ]. repeat split; try by rewrite updated_item_lookup.
  - intros n Hn1 Hn2 Hn3. rewrite updated_item_lookup.
    apply String.eqb_neq in Hn1, Hn2, Hn3. by rewrite Hn1, Hn2, Hn3.
  - intros k' Hne. by rewrite lookup_insert_ne.
  - intros ev2 str2 d2 Hk2 Hb2 Hp2 Hc2 Ha2.
    rewrite Hrun.
    rewrite (update_on_table table_name ev2 cx sy tbl k str2 d2 content author
               Hk2 Hb2 Hp2 Hc2 Ha2).
    by rewrite Hold.
Qed.

(** C7.  delete answers 204 without a body whether or not the store holds a
    record with the id; a second delete with the same id does too, and the
    store is then without that key. *)
Theorem delete_idempotent `{Json} (table_name : string) (ev : event)
    (cx : context) (tbl : gmap string item) (k : string) :
  path_parameter ev "postId" = Ok k ->
  let no_content := {| statusCode := 204; headers := None; body := None |} in
  exists tbl',
    handler.delete table_name ev cx tbl = (Ok no_content, tbl')
    /\ handler.delete table_name ev cx tbl' = (Ok no_content, tbl')
    /\ tbl' !! k = None
    /\ forall k', k' <> k -> tbl' !! k' = tbl !! k'.
Proof.
  intros Hk no_content. exists (delete k tbl).
  rewrite !(delete_on_table _ _ _ _ _ Hk).
  split; [done | ]. split; [ by rewrite delete_delete_eq | ].
  split; [ by rewrite lookup_delete_eq | ].
  intros k' Hne. by rewrite lookup_delete_ne.
Qed.

(** C8.  A create whose body parses and whose put is answered with status
    200 returns status 201 without a body, and the store holds exactly one
    record more: the new one under the generated id, every other key as it
    was. *)
Theorem create_returns_201 `{Json} (table_name : string) (ev : event)
    (cx : context) (sy : sys) (tbl tbl' : gmap string item) (str : string)
    (d : list (string * pyval)) (res : ddb_response) :
  ev_body ev = Some str -> json_loads str = Some (PDict d) ->
  put_item table_name (to_item (created sy d)) tbl = (Ok res, tbl') ->
  HTTPStatusCode res = 200 ->
  handler.create table_name ev cx sy tbl
  = (Ok {| statusCode := 201; headers := None; body := None |}, tbl')
  /\ tbl' !! uuid4 sy = Some (created_item sy d)
  /\ (forall k, k <> uuid4 sy -> tbl' !! k = tbl !! k)
  /\ (tbl !! uuid4 sy = None -> size tbl' = Datatypes.S (size tbl)).
Proof.
  intros Hb Hp Hput Hcode.
  rewrite (create_run _ _ _ _ _ _ d Hb Hp), Hput, Hcode.
  rewrite put_created in Hput. injection Hput as _ <-.
  split; [done | ]. split; [ by rewrite lookup_insert_eq | ].
  split; [ intros k Hne; by rewrite lookup_insert_ne | ].
  intros Hfresh. by rewrite map_size_insert_None.
Qed.

(** C9.  all returns status 200 and, as its body, the serialization of the
    list that holds the [to_dict] of every scanned record, one element per
    record and in the order of the scan. *)
Theorem all_returns_scanned_records `{Json} {S : Type} `{DynamoDB S}
    (table_name : string) (ev : event) (cx : context) (s s' : S)
    (res : ddb_response) (items : list attr) :
  scan table_name s = (Ok res, s') -> Items res = Some items ->
  exists posts,
    handler.all table_name ev cx s
    = (Ok {| statusCode := 200; headers := None;
             body := Some (json_dumps (PList posts)) |}, s')
    /\ length posts = length items
    /\ forall i, posts !! i = to_dict <$> items !! i.
Proof.
  intros Hscan Hits. exists (map to_dict items).
  rewrite all_run, Hscan, Hits. split; [done | ].
  split; [ apply length_map | ]. intros i. apply list_lookup_fmap.
Qed.

(** C10.  get leaves the store as it found it, and what it returns depends
    on the store only through the entry under the postId of the request:
    on two stores that agree there it returns the same. *)
Theorem get_reads_only_its_key `{Json} (table_name : string) (ev : event)
    (cx : context) (tbl1 tbl2 : gmap string item) :
  (forall k, path_parameter ev "postId" = Ok k -> tbl1 !! k = tbl2 !! k) ->
  snd (handler.get table_name ev cx tbl1) = tbl1
  /\ fst (handler.get table_name ev cx tbl1)
     = fst (handler.get table_name ev cx tbl2).
Proof.
  intros Hagree.
  destruct (path_parameter ev "postId") as [k | e] eqn:Hk.
  - rewrite !(get_on_table _ _ _ _ _ Hk). by rewrite (Hagree k).
  - by rewrite !(get_raises _ _ _ _ _ Hk).
Qed.

(** ** Errors and edges of the handlers *)

(** create refuses a request before it reaches the store: without a body
    it raises [TypeError], with a body that is not JSON [JSONDecodeError],
    with a body that is JSON but no object [TypeError]; the store is left
    as it was. *)
Theorem create_rejects_body `{Json} {S : Type} `{DynamoDB S}
    (table_name : string) (ev : event) (cx : context) (sy : sys) (s : S) :
  (ev_body ev = None ->
   handler.create table_name ev cx sy s = (Raise TypeError, s))
  /\ (forall str, ev_body ev = Some str -> json_loads str = None ->
      handler.create table_name ev cx sy s = (Raise JSONDecodeError, s))
  /\ (forall str v, ev_body ev = Some str -> json_loads str = Some v ->
      (forall d, v <> PDict d) ->
      handler.create table_name ev cx sy s = (Raise TypeError, s)).
Proof.
  repeat split.
  - intros Hb. run_handler. by rewrite Hb.
  - intros str Hb Hp. run_handler. by rewrite Hb, Hp.
  - intros str v Hb Hp Hv. run_handler. rewrite Hb, Hp.
    destruct v; try done. by destruct (Hv d).
Qed.

(** update reads the body only after the path parameter and reads
    [content] before [author]: the first of these that fails decides the
    exception, and the store is left as it was. *)
Theorem update_checks_in_order `{Json} {S : Type} `{DynamoDB S}
    (table_name : string) (ev : event) (cx : context) (sy : sys) (s : S)
    (k : string) :
  path_parameter ev "postId" = Ok k ->
  (ev_body ev = None ->
   handler.update table_name ev cx sy s = (Raise TypeError, s))
  /\ (forall str, ev_body ev = Some str -> json_loads str = None ->
      handler.update table_name ev cx sy s = (Raise JSONDecodeError, s))
  /\ (forall str v, ev_body ev = Some str -> json_loads str = Some v ->
      (forall d, v <> PDict d) ->
      handler.update table_name ev cx sy s = (Raise TypeError, s))
  /\ (forall str d, ev_body ev = Some str ->
      json_loads str = Some (PDict d) -> Alist.lookup "content" d = None ->
      handler.update table_name ev cx sy s = (Raise (KeyError "content"), s))
  /\ (forall str d content, ev_body ev = Some str ->
      json_loads str = Some (PDict d) ->
      Alist.lookup "content" d = Some content ->
      Alist.lookup "author" d = None ->
      handler.update table_name ev cx sy s = (Raise (KeyError "author"), s)).
Proof.
  intros Hk. repeat split.
  - intros Hb. run_handler. by rewrite Hk, Hb.
  - intros str Hb Hp. run_handler. by rewrite Hk, Hb, Hp.
  - intros str v Hb Hp Hv. run_handler. rewrite Hk, Hb, Hp.
    destruct v; try done. by destruct (Hv d).
  - intros str d Hb Hp Hc. run_handler. by rewrite Hk, Hb, Hp, Hc.
  - intros str d content Hb Hp Hc Ha. run_handler.
    by rewrite Hk, Hb, Hp, Hc, Ha.
Qed.

(** get, update and delete read the postId first: without path parameters
    they raise [TypeError], without a postId among them [KeyError], whatever
    the body is, and the store is left as it was. *)
Theorem missing_post_id_raises `{Json} {S : Type} `{DynamoDB S}
    (table_name : string) (ev : event) (cx : context) (sy : sys) (s : S) :
  (forall ps, ev_pathParameters ev = Some ps -> Alist.lookup "postId" ps = None) ->
  let e := match ev_pathParameters ev with
           | None => TypeError
           | Some _ => KeyError "postId"
           end in
  handler.get table_name ev cx s = (Raise e, s)
  /\ handler.update table_name ev cx sy s = (Raise e, s)
  /\ handler.delete table_name ev cx s = (Raise e, s).
Proof.
  intros Hno e.
  assert (Hk : path_parameter ev "postId" = Raise e).
  { unfold path_parameter, e.
    destruct (ev_pathParameters ev) as [ps | ]; [ | done ].
    by rewrite (Hno ps). }
  repeat split; run_handler; by rewrite Hk.
Qed.

(** What the store call raises, the handler raises: no handler turns an
    exception of the client into an envelope. *)
Theorem store_exception_propagates `{Json} {S : Type} `{DynamoDB S}
    (table_name : string) (ev : event) (cx : context) (sy : sys) (s s' : S)
    (e : exn) :
  (forall str d, ev_body ev = Some str -> json_loads str = Some (PDict d) ->
     put_item table_name (to_item (created sy d)) s = (Raise e, s') ->
     handler.create table_name ev cx sy s = (Raise e, s'))
  /\ (forall k, path_parameter ev "postId" = Ok k ->
      get_item table_name [("id", AS k)] s = (Raise e, s') ->
      handler.get table_name ev cx s = (Raise e, s'))
  /\ (scan table_name s = (Raise e, s') ->
      handler.all table_name ev cx s = (Raise e, s'))
  /\ (forall k str d content author,
      path_parameter ev "postId" = Ok k -> ev_body ev = Some str ->
      json_loads str = Some (PDict d) ->
      Alist.lookup "content" d = Some content ->
      Alist.lookup "author" d = Some author ->
      updating table_name k sy content author s = (Raise e, s') ->
      handler.update table_name ev cx sy s = (Raise e, s'))
  /\ (forall k, path_parameter ev "postId" = Ok k ->
      delete_item table_name [("id", AS k)] s = (Raise e, s') ->
      handler.delete table_name ev cx s = (Raise e, s')).
Proof.
  repeat split.
  - intros str d Hb Hp Hput. by rewrite (create_run _ _ _ _ _ _ d Hb Hp), Hput.
  - intros k Hk Hget. by rewrite (get_run _ _ _ _ k Hk), Hget.
  - intros Hscan. by rewrite all_run, Hscan.
  - intros k str d content author Hk Hb Hp Hc Ha Hupd.
    by rewrite (update_run _ _ _ _ _ k str d content author Hk Hb Hp Hc Ha),
      Hupd.
  - intros k Hk Hdel. by rewrite (delete_run _ _ _ _ k Hk), Hdel.
Qed.

(** The envelopes a handler can return: create 201 or 500, get 200 or 500,
    all 200 only, update 200 or 500, delete 204 or 500.  A success of
    create, update and delete has neither body nor headers, only a found
    post has headers, and a 500 carries the fixed message of its handler. *)
Theorem handler_status_codes `{Json} {S : Type} `{DynamoDB S}
    (table_name : string) (ev : event) (cx : context) (sy : sys) (s s' : S)
    (resp : response) :
  (handler.create table_name ev cx sy s = (Ok resp, s') ->
   resp = {| statusCode := 201; headers := None; body := None |}
   \/ resp = {| statusCode := 500; headers := None;
                body := Some "An error occurred while creating post." |})
  /\ (handler.get table_name ev cx s = (Ok resp, s') ->
      (statusCode resp = 200 /\ headers resp = json_headers
       /\ is_Some (body resp))
      \/ resp = {| statusCode := 500; headers := None;
                   body := Some "An error occurred while getting post." |})
  /\ (handler.all table_name ev cx s = (Ok resp, s') ->
      statusCode resp = 200 /\ headers resp = None /\ is_Some (body resp))
  /\ (handler.update table_name ev cx sy s = (Ok resp, s') ->
      resp = {| statusCode := 200; headers := None; body := None |}
      \/ exists k, path_parameter ev "postId" = Ok k
           /\ resp = {| statusCode := 500; headers := None;
                        body := Some ("An error occurred while updating post "
                                      ++ k) |})
  /\ (handler.delete table_name ev cx s = (Ok resp, s') ->
      resp = {| statusCode := 204; headers := None; body := None |}
      \/ exists k, path_parameter ev "postId" = Ok k
           /\ resp = {| statusCode := 500; headers := None;
                        body := Some ("An error occurred while deleting post "
                                      ++ k) |}).
Proof.
  repeat apply conj.
  - run_handler.
    destruct (ev_body ev) as [str | ]; [ | done ].
    destruct (json_loads str) as [[ | | | | | d] | ]; try done.
    destruct (put_item _ _ s) as [[res | e] s0]; [ | done ].
    destruct (HTTPStatusCode res =? 200)%Z; intros [= <- _];
      [ by left | by right ].
  - run_handler.
    destruct (path_parameter ev "postId") as [k | e]; [ | done ].
    destruct (get_item _ _ s) as [[res | e] s0]; [ | done ].
    destruct (Item res); intros [= <- _]; [left | by right].
    cbn. by eauto.
  - rewrite all_run. destruct (scan _ s) as [[res | e] s0]; [ | done ].
    destruct (Items res); [ | done ]. intros [= <- _]. cbn. by eauto.
  - run_handler.
    destruct (path_parameter ev "postId") as [k | e]; [ | done ].
    destruct (ev_body ev) as [str | ]; [ | done ].
    destruct (json_loads str) as [[ | | | | | d] | ]; try done.
    destruct (Alist.lookup "content" d); [ | done ].
    destruct (Alist.lookup "author" d); [ | done ].
    destruct (update_item _ _ _ _ _ s) as [[res | e] s0]; [ | done ].
    destruct (HTTPStatusCode res =? 200)%Z; intros [= <- _];
      [ by left | right; by exists k ].
  - run_handler.
    destruct (path_parameter ev "postId") as [k | e]; [ | done ].
    destruct (delete_item _ _ s) as [[res | e] s0]; [ | done ].
    destruct (HTTPStatusCode res =? 200)%Z; intros [= <- _];
      [ by left | right; by exists k ].
Qed.

(** Every invocation makes at most one call of the client, and that call
    names the configured table: create one [put_item] of the record with the
    assigned fields, get one [get_item] and delete one [delete_item] with
    the key [{"id": {"S": postId}}], all one [scan], update one
    [update_item] of exactly [content], [author] and [updatedAt]; a request
    that fails before the call makes none. *)
Theorem handlers_call_store_at_most_once `{Json} {S : Type} `{DynamoDB S}
    (table_name : string) (ev : event) (cx : context) (sy : sys)
    (log : list call) (s : S) :
  let parsed :=
    match ev_body ev with
    | Some str =>
        match json_loads str with
        | Some (PDict d) => Some d
        | _ => None
        end
    | None => None
    end in
  let made (calls : list call) : list call := (log ++ calls)%list in
  fst (snd (@handler.create _ _ logging table_name ev cx sy (log, s)))
  = made match parsed with
         | Some d => [PutItem table_name (to_item (created sy d))]
         | None => []
         end
  /\ fst (snd (@handler.get _ _ logging table_name ev cx (log, s)))
     = made match path_parameter ev "postId" with
            | Ok k => [GetItem table_name [("id", AS k)]]
            | Raise _ => []
            end
  /\ fst (snd (@handler.all _ _ logging table_name ev cx (log, s)))
     = made [Scan table_name]
  /\ fst (snd (@handler.update _ _ logging table_name ev cx sy (log, s)))
     = made match path_parameter ev "postId", parsed with
            | Ok k, Some d =>
                match Alist.lookup "content" d, Alist.lookup "author" d with
                | Some content, Some author =>
                    [UpdateItem table_name [("id", AS k)]
                       (SET [("content", ":c"); ("author", ":a");
                             ("updatedAt", ":u")])
                       [(":c", to_item content); (":a", to_item author);
                        (":u", AS (now_isoformat sy))]
                       "UPDATED_NEW"]
                | _, _ => []
                end
            | _, _ => []
            end
  /\ fst (snd (@handler.delete _ logging table_name ev cx (log, s)))
     = made match path_parameter ev "postId" with
            | Ok k => [DeleteItem table_name [("id", AS k)]]
            | Raise _ => []
            end.
Proof.
  intros parsed made. unfold parsed, made. repeat apply conj.
  - run_handler.
    destruct (ev_body ev) as [str | ]; [ | by rewrite app_nil_r ].
    destruct (json_loads str) as [[ | | | | | d] | ];
      try by rewrite app_nil_r.
    cbn [put_item logging]. unfold logged, created. cbn [fst snd].
    destruct (put_item _ _ s) as [[res | e] s0]; [ | done ].
    by destruct (HTTPStatusCode res =? 200)%Z.
  - run_handler.
    destruct (path_parameter ev "postId") as [k | e]; [ | by rewrite app_nil_r ].
    cbn [get_item logging]. unfold logged. cbn [fst snd].
    destruct (get_item _ _ s) as [[res | e] s0]; [ | done ].
    by destruct (Item res).
  - run_handler. cbn [scan logging]. unfold logged. cbn [fst snd].
    destruct (scan _ s) as [[res | e] s0]; [ | done ].
    by destruct (Items res).
  - run_handler.
    destruct (path_parameter ev "postId") as [k | e]; [ | by rewrite app_nil_r ].
    destruct (ev_body ev) as [str | ]; [ | by rewrite app_nil_r ].
    destruct (json_loads str) as [[ | | | | | d] | ];
      try by rewrite app_nil_r.
    destruct (Alist.lookup "content" d) as [content | ];
      [ | by rewrite app_nil_r ].
    destruct (Alist.lookup "author" d) as [author | ];
      [ | by rewrite app_nil_r ].
    cbn [update_item logging to_item]. unfold logged. cbn [fst snd].
    destruct (update_item _ _ _ _ _ s) as [[res | e] s0]; [ | done ].
    by destruct (HTTPStatusCode res =? 200)%Z.
  - run_handler.
    destruct (path_parameter ev "postId") as [k | e]; [ | by rewrite app_nil_r ].
    cbn [delete_item logging]. unfold logged. cbn [fst snd].
    destruct (delete_item _ _ s) as [[res | e] s0]; [ | done ].
    by destruct (HTTPStatusCode res =? 200)%Z.
Qed.

(** ** The handlers one after another *)

Section set_facts.
Context {V : Type}.
Implicit Types (d : list (string * V)) (k : string) (v : V).

Lemma set_set k v v' d : Alist.set k v (Alist.set k v' d) = Alist.set k v d.
Proof.
  induction d as [ | [k0 v0] d IH ]; simpl.
  - by rewrite String.eqb_refl.
  - destruct (String.eqb k k0) eqn:E; simpl.
    + by rewrite String.eqb_refl.
    + by rewrite E, IH.
Qed.

(** A key that is bound keeps its place, so assigning it commutes with
    assigning another key. *)
Lemma set_swap k k' v v' d :
  k <> k' -> is_Some (Alist.lookup k d) ->
  Alist.set k v (Alist.set k' v' d) = Alist.set k' v' (Alist.set k v d).
Proof.
  intros Hne. induction d as [ | [k0 v0] d IH ]; simpl.
  - by intros [? ?].
  - intros Hin.
    destruct (String.eqb k k0) eqn:E; destruct (String.eqb k' k0) eqn:E';
      simpl; rewrite ?E, ?E'.
    + apply String.eqb_eq in E, E'. congruence.
    + apply String.eqb_neq in Hne. apply String.eqb_eq in E as ->.
      by rewrite String.eqb_sym, Hne.
    + apply String.eqb_neq in Hne. apply String.eqb_eq in E' as ->.
      by rewrite Hne.
    + by rewrite IH.
Qed.
End set_facts.

(** An update over an update is the later update alone. *)
Lemma updated_item_twice (sy1 sy2 : sys) (c1 a1 c2 a2 : pyval) (old : item) :
  updated_item sy2 c2 a2 (updated_item sy1 c1 a1 old)
  = updated_item sy2 c2 a2 old.
Proof.
  unfold updated_item, Table.assign. cbn [fold_left fst snd].
  rewrite (set_swap "content" "updatedAt");
    [ | done | rewrite lookup_set_ne, lookup_set_eq by done; by eexists ].
  rewrite (set_swap "content" "author");
    [ | done | rewrite lookup_set_eq; by eexists ].
  rewrite set_set.
  rewrite (set_swap "author" "updatedAt");
    [ | done | rewrite lookup_set_eq; by eexists ].
  by rewrite !set_set.
Qed.

(** A get that follows a delete of the same id finds nothing and answers
    with the generic 500 envelope; there is no not-found status. *)
Theorem get_after_delete `{Json} (table_name : string) (ev ev' : event)
    (cx cx' : context) (tbl : gmap string item) (k : string) :
  path_parameter ev "postId" = Ok k -> path_parameter ev' "postId" = Ok k ->
  exists tbl',
    handler.delete table_name ev cx tbl
    = (Ok {| statusCode := 204; headers := None; body := None |}, tbl')
    /\ handler.get table_name ev' cx' tbl'
       = (Ok {| statusCode := 500; headers := None;
                body := Some "An error occurred while getting post." |}, tbl').
Proof.
  intros Hk Hk'. exists (delete k tbl).
  rewrite (delete_on_table _ _ _ _ _ Hk), (get_on_table _ _ _ _ _ Hk').
  by rewrite lookup_delete_eq.
Qed.

(** update does not look whether the post exists: for an id the store
    does not hold it answers 200 and leaves a record with the key,
    [content], [author] and [updatedAt] but no [createdAt], which the next
    get returns. *)
Theorem update_absent_creates_partial_record `{Json} (table_name : string)
    (ev ev' : event) (cx cx' : context) (sy : sys) (tbl : gmap string item)
    (k str : string) (d : list (string * pyval)) (content author : pyval) :
  path_parameter ev "postId" = Ok k ->
  ev_body ev = Some str -> json_loads str = Some (PDict d) ->
  Alist.lookup "content" d = Some content ->
  Alist.lookup "author" d = Some author ->
  tbl !! k = None ->
  path_parameter ev' "postId" = Ok k ->
  exists tbl',
    handler.update table_name ev cx sy tbl
    = (Ok {| statusCode := 200; headers := None; body := None |}, tbl')
    /\ tbl' !! k = Some [("id", AS k); ("content", to_item content);
                         ("author", to_item author);
                         ("updatedAt", AS (now_isoformat sy))]
    /\ handler.get table_name ev' cx' tbl'
       = (Ok {| statusCode := 200; headers := json_headers;
                body := Some (json_dumps
                          (PDict [("id", PStr k); ("content", content);
                                  ("author", author);
                                  ("updatedAt", PStr (now_isoformat sy))])) |},
          tbl').
Proof.
  intros Hk Hb Hp Hc Ha Hnone Hk'. eexists.
  split; [ exact (update_on_table _ _ _ _ _ _ _ _ _ _ Hk Hb Hp Hc Ha) | ].
  rewrite Hnone. cbn [default].
  rewrite (get_on_table _ _ _ _ _ Hk'), lookup_insert_eq.
  split; [ done | ].
  unfold updated_item, Table.assign. cbn. by rewrite !to_dict_to_item.
Qed.

(** A get that follows an update of a stored post returns the post with
    the [content] and [author] of the update, [updatedAt] at the time of the
    update, and every other field, [id] and [createdAt] among them, as it
    was stored. *)
Theorem get_after_update `{Json} (table_name : string) (ev ev' : event)
    (cx cx' : context) (sy : sys) (tbl : gmap string item) (k str : string)
    (d : list (string * pyval)) (content author : pyval) (old : item) :
  path_parameter ev "postId" = Ok k ->
  ev_body ev = Some str -> json_loads str = Some (PDict d) ->
  Alist.lookup "content" d = Some content ->
  Alist.lookup "author" d = Some author ->
  tbl !! k = Some old ->
  path_parameter ev' "postId" = Ok k ->
  exists tbl' post,
    handler.update table_name ev cx sy tbl
    = (Ok {| statusCode := 200; headers := None; body := None |}, tbl')
    /\ handler.get table_name ev' cx' tbl'
       = (Ok {| statusCode := 200; headers := json_headers;
                body := Some (json_dumps post) |}, tbl')
    /\ getitem post "content" = Ok content
    /\ getitem post "author" = Ok author
    /\ getitem post "updatedAt" = Ok (PStr (now_isoformat sy))
    /\ forall n, n <> "content" -> n <> "author" -> n <> "updatedAt" ->
         getitem post n = getitem (to_dict (AM old)) n.
Proof.
  intros Hk Hb Hp Hc Ha Hold Hk'.
  exists (<[k := updated_item sy content author old]> tbl),
    (to_dict (AM (updated_item sy content author old))).
  rewrite (update_on_table _ _ _ _ _ _ _ _ _ _ Hk Hb Hp Hc Ha), Hold.
  rewrite (get_on_table _ _ _ _ _ Hk'), lookup_insert_eq.
  do 2 (split; [ done | ]).
  cbn [to_dict getitem].
  do 3 (split; [ rewrite lookup_map, updated_item_lookup; cbn;
                 by rewrite ?to_dict_to_item | ]).
  intros n Hn1 Hn2 Hn3. rewrite !lookup_map, updated_item_lookup.
  apply String.eqb_neq in Hn1, Hn2, Hn3. by rewrite Hn1, Hn2, Hn3.
Qed.

(** all after a create lists the created record, and as many records as
    the store holds: one more than before when the id was not in use. *)
Theorem all_after_create `{Json} (table_name : string) (ev ev' : event)
    (cx cx' : context) (sy : sys) (tbl : gmap string item) (str : string)
    (d : list (string * pyval)) :
  ev_body ev = Some str -> json_loads str = Some (PDict d) ->
  exists tbl' posts,
    handler.create table_name ev cx sy tbl
    = (Ok {| statusCode := 201; headers := None; body := None |}, tbl')
    /\ handler.all table_name ev' cx' tbl'
       = (Ok {| statusCode := 200; headers := None;
                body := Some (json_dumps (PList posts)) |}, tbl')
    /\ created sy d ∈ posts
    /\ length posts = size tbl'
    /\ (tbl !! uuid4 sy = None -> length posts = Datatypes.S (size tbl)).
Proof.
  intros Hb Hp.
  exists (<[uuid4 sy := created_item sy d]> tbl),
    (map to_dict (Table.rows (<[uuid4 sy := created_item sy d]> tbl))).
  rewrite (create_on_table _ _ _ _ _ _ _ Hb Hp), all_on_table.
  do 2 (split; [ done | ]).
  rewrite length_map, rows_length. split; [ | split; [ done | ] ].
  - apply list_elem_of_fmap. exists (AM (created_item sy d)). split.
    + change (AM (created_item sy d)) with (to_item (created sy d)).
      by rewrite to_dict_to_item.
    + unfold Table.rows. apply list_elem_of_fmap.
      exists (uuid4 sy, created_item sy d). split; [ done | ].
      apply elem_of_map_to_list, lookup_insert_eq.
  - intros Hfresh. by apply map_size_insert_None.
Qed.

(** Of two updates of the same post the later wins: the store is left as
    the later update alone would leave it, whether or not the post was
    stored. *)
Theorem update_twice_last_wins `{Json} (table_name : string) (ev1 ev2 : event)
    (cx1 cx2 : context) (sy1 sy2 : sys) (tbl : gmap string item)
    (k str1 str2 : string) (d1 d2 : list (string * pyval))
    (c1 a1 c2 a2 : pyval) :
  path_parameter ev1 "postId" = Ok k -> ev_body ev1 = Some str1 ->
  json_loads str1 = Some (PDict d1) ->
  Alist.lookup "content" d1 = Some c1 -> Alist.lookup "author" d1 = Some a1 ->
  path_parameter ev2 "postId" = Ok k -> ev_body ev2 = Some str2 ->
  json_loads str2 = Some (PDict d2) ->
  Alist.lookup "content" d2 = Some c2 -> Alist.lookup "author" d2 = Some a2 ->
  handler.update table_name ev2 cx2 sy2
    (snd (handler.update table_name ev1 cx1 sy1 tbl))
  = handler.update table_name ev2 cx2 sy2 tbl.
Proof.
  intros Hk1 Hb1 Hp1 Hc1 Ha1 Hk2 Hb2 Hp2 Hc2 Ha2.
  rewrite (update_on_table _ ev1 _ _ _ _ _ _ _ _ Hk1 Hb1 Hp1 Hc1 Ha1).
  cbn [snd].
  rewrite (update_on_table _ ev2 _ _ tbl _ _ _ _ _ Hk2 Hb2 Hp2 Hc2 Ha2).
  rewrite (update_on_table _ ev2 _ _ _ _ _ _ _ _ Hk2 Hb2 Hp2 Hc2 Ha2).
  rewrite lookup_insert_eq. cbn [default from_option id].
  by rewrite updated_item_twice, insert_insert_eq.
Qed.

(** A delete of the id that a create has just used, on a store that did
    not hold it, leaves the store as it was before the create. *)
Theorem create_then_delete_restores `{Json} (table_name : string)
    (ev ev' : event) (cx cx' : context) (sy : sys) (tbl : gmap string item)
    (str : string) (d : list (string * pyval)) :
  ev_body ev = Some str -> json_loads str = Some (PDict d) ->
  path_parameter ev' "postId" = Ok (uuid4 sy) ->
  tbl !! uuid4 sy = None ->
  handler.delete table_name ev' cx'
    (snd (handler.create table_name ev cx sy tbl))
  = (Ok {| statusCode := 204; headers := None; body := None |}, tbl).
Proof.
  intros Hb Hp Hk Hfresh.
  rewrite (create_on_table _ _ _ _ _ _ _ Hb Hp). cbn [snd].
  rewrite (delete_on_table _ _ _ _ _ Hk). by rewrite delete_insert_id.
Qed.

(** ** The claims on sample requests *)

Section scenarios.
#[local] Existing Instance PyJson.codec.
Import Sample.

Lemma get_after_create_witness :
  ev_body (posting hello) = Some (PyJson.dumps hello)
  /\ json_loads (PyJson.dumps hello)
     = Some (PDict [("content", PStr "hello"); ("author", PStr "alice")])
  /\ path_parameter (naming (uuid4 clock)) "postId" = Ok (uuid4 clock)
  /\ exists tbl',
       handler.create table_name (posting hello) LambdaContext clock one
       = (Ok {| statusCode := 201; headers := None; body := None |}, tbl')
       /\ handler.get table_name (naming (uuid4 clock)) LambdaContext tbl'
          = (Ok {| statusCode := 200; headers := json_headers;
                   body := Some (json_dumps
                             (created clock [("content", PStr "hello");
                                             ("author", PStr "alice")])) |},
             tbl')
       /\ forall v, to_dict (to_item v) = v.
Proof.
  assert (Hp : json_loads (PyJson.dumps hello)
               = Some (PDict [("content", PStr "hello"); ("author", PStr "alice")]))
    by (vm_compute; reflexivity).
  do 3 (split; [ first [ exact Hp | reflexivity ] | ]).
  exact (get_after_create table_name (posting hello) (naming (uuid4 clock))
           LambdaContext LambdaContext clock one (PyJson.dumps hello) _
           eq_refl Hp eq_refl).
Defined.
Lemma create_assigns_id_and_createdAt_witness :
  ev_body (posting world) = Some (PyJson.dumps world)
  /\ json_loads (PyJson.dumps world)
     = Some (PDict [("content", PStr "world"); ("author", PStr "alice");
                    ("id", PStr "forged")])
  /\ NoDup (map fst [("content", PStr "world"); ("author", PStr "alice");
                     ("id", PStr "forged")])
  /\ exists m,
       to_item (created clock [("content", PStr "world");
                               ("author", PStr "alice");
                               ("id", PStr "forged")]) = AM m
       /\ snd (handler.create table_name (posting world) LambdaContext clock one)
          = <[uuid4 clock := m]> one
       /\ Alist.lookup "id" m = Some (AS (uuid4 clock))
       /\ Alist.lookup "createdAt" m = Some (AS (now_isoformat clock))
       /\ (forall k, k <> "id" -> k <> "createdAt" ->
             Alist.lookup k m
             = to_item <$> Alist.lookup k [("content", PStr "world");
                                           ("author", PStr "alice");
                                           ("id", PStr "forged")])
       /\ NoDup (map fst m)
       /\ (forall v, ("id", v) ∈ m -> v = AS (uuid4 clock))
       /\ (forall v, ("createdAt", v) ∈ m -> v = AS (now_isoformat clock))
       /\ (forall k v, (k, v) ∈ m -> k <> "id" -> k <> "createdAt" ->
             exists x, (k, x) ∈ [("content", PStr "world");
                                 ("author", PStr "alice");
                                 ("id", PStr "forged")] /\ v = to_item x).
Proof.
  assert (Hp : json_loads (PyJson.dumps world)
               = Some (PDict [("content", PStr "world"); ("author", PStr "alice");
                              ("id", PStr "forged")]))
    by (vm_compute; reflexivity).
  assert (Hnd : NoDup (map fst [("content", PStr "world");
                                ("author", PStr "alice");
                                ("id", PStr "forged")]))
    by (apply (bool_decide_unpack _); vm_compute; reflexivity).
  do 3 (split; [ first [ exact Hp | exact Hnd | reflexivity ] | ]).
  exact (create_assigns_id_and_createdAt table_name (posting world)
           LambdaContext clock one (PyJson.dumps world) _ eq_refl Hp Hnd).
Defined.

Lemma get_found_or_generic_500_witness :
  path_parameter (naming "p1") "postId" = Ok "p1"
  /\ (forall m, one !! "p1" = Some m ->
        handler.get table_name (naming "p1") LambdaContext one
        = (Ok {| statusCode := 200; headers := json_headers;
                 body := Some (json_dumps (to_dict (AM m))) |}, one))
  /\ (one !! "p1" = None ->
      handler.get table_name (naming "p1") LambdaContext one
      = (Ok {| statusCode := 500; headers := None;
               body := Some "An error occurred while getting post." |}, one)).
Proof.
  split; [ reflexivity | ].
  exact (get_found_or_generic_500 table_name (naming "p1") LambdaContext one
           "p1" eq_refl).
Defined.

(** C4 fails: a body that is not JSON makes create raise
    [JSONDecodeError]; no envelope is returned. *)
Lemma create_malformed_body_raises :
  handler.create table_name
    {| ev_body := Some "not json"; ev_pathParameters := None |}
    LambdaContext clock (∅ : gmap string item)
  = (Raise JSONDecodeError, ∅)
  /\ ~ returns (handler.create table_name
                  {| ev_body := Some "not json"; ev_pathParameters := None |}
                  LambdaContext clock) (∅ : gmap string item).
Proof.
  assert (Hrun : handler.create table_name
                   {| ev_body := Some "not json"; ev_pathParameters := None |}
                   LambdaContext clock (∅ : gmap string item)
                 = (Raise JSONDecodeError, ∅)) by reflexivity.
  split; [ exact Hrun | ].
  intros (a & s' & Hr). rewrite Hrun in Hr. discriminate Hr.
Qed.

(** The same for a request without a body and for an update whose body
    has no [content]. *)
Example create_without_body_raises :
  handler.create table_name (naming "p1") LambdaContext clock one
  = (Raise TypeError, one).
Proof. reflexivity. Qed.

Example update_without_content_raises :
  handler.update table_name (putting "p1" (PDict [("author", PStr "bob")]))
    LambdaContext clock one
  = (Raise (KeyError "content"), one).
Proof. reflexivity. Qed.

Lemma handlers_return_exactly_when_witness :
  returns (handler.create table_name (posting hello) LambdaContext clock) one
  /\ returns (handler.update table_name (putting "p1" world) LambdaContext clock)
       one.
Proof.
  pose proof (handlers_return_exactly_when table_name (posting hello)
                LambdaContext clock one) as (Hcreate & _).
  pose proof (handlers_return_exactly_when table_name (putting "p1" world)
                LambdaContext clock one) as (_ & _ & _ & Hupdate & _).
  split.
  - apply Hcreate. eexists (PyJson.dumps hello), _.
    split; [ reflexivity | ]. split; [ vm_compute; reflexivity | ].
    eexists _, _. apply put_created.
  - apply Hupdate.
    eexists "p1", (PyJson.dumps world), _, (PStr "world"), (PStr "alice").
    split; [ reflexivity | ]. split; [ reflexivity | ].
    split; [ vm_compute; reflexivity | ].
    split; [ reflexivity | ]. split; [ reflexivity | ].
    by eexists _, _.
Defined.



Lemma update_touches_three_attributes_witness :
  path_parameter (putting "p1" world) "postId" = Ok "p1"
  /\ ev_body (putting "p1" world) = Some (PyJson.dumps world)
  /\ json_loads (PyJson.dumps world)
     = Some (PDict [("content", PStr "world"); ("author", PStr "alice");
                    ("id", PStr "forged")])
  /\ one !! "p1" = Some stored
  /\ exists new,
       handler.update table_name (putting "p1" world) LambdaContext clock one
       = (Ok {| statusCode := 200; headers := None; body := None |},
          <["p1" := new]> one)
       /\ Alist.lookup "content" new = Some (AS "world")
       /\ Alist.lookup "updatedAt" new = Some (AS (now_isoformat clock))
       /\ Alist.lookup "id" new = Alist.lookup "id" stored
       /\ Alist.lookup "createdAt" new = Alist.lookup "createdAt" stored.
Proof.
  assert (Hp : json_loads (PyJson.dumps world)
               = Some (PDict [("content", PStr "world"); ("author", PStr "alice");
                              ("id", PStr "forged")]))
    by (vm_compute; reflexivity).
  assert (Hold : one !! "p1" = Some stored) by (vm_compute; reflexivity).
  do 4 (split; [ first [ exact Hp | exact Hold | reflexivity ] | ]).
  destruct (update_touches_three_attributes table_name (putting "p1" world)
              LambdaContext clock one "p1" (PyJson.dumps world) _
              (PStr "world") (PStr "alice") stored
              eq_refl eq_refl Hp eq_refl eq_refl Hold)
    as (new & Hrun & Hc & _ & Hu & Hframe & _).
  exists new. split; [ exact Hrun | ]. split; [ exact Hc | ].
  split; [ exact Hu | ]. split; apply Hframe; discriminate.
Defined.

Lemma delete_idempotent_witness :
  path_parameter (naming "p1") "postId" = Ok "p1"
  /\ exists tbl',
       handler.delete table_name (naming "p1") LambdaContext two
       = (Ok {| statusCode := 204; headers := None; body := None |}, tbl')
       /\ handler.delete table_name (naming "p1") LambdaContext tbl'
          = (Ok {| statusCode := 204; headers := None; body := None |}, tbl')
       /\ tbl' !! "p1" = None
       /\ forall k', k' <> "p1" -> tbl' !! k' = two !! k'.
Proof.
  split; [ reflexivity | ].
  exact (delete_idempotent table_name (naming "p1") LambdaContext two "p1"
           eq_refl).
Defined.

Lemma create_returns_201_witness :
  ev_body (posting hello) = Some (PyJson.dumps hello)
  /\ json_loads (PyJson.dumps hello)
     = Some (PDict [("content", PStr "hello"); ("author", PStr "alice")])
  /\ HTTPStatusCode (Table.answer None None None) = 200
  /\ one !! uuid4 clock = None
  /\ handler.create table_name (posting hello) LambdaContext clock one
     = (Ok {| statusCode := 201; headers := None; body := None |},
        <[uuid4 clock := created_item clock [("content", PStr "hello");
                                             ("author", PStr "alice")]]> one)
  /\ size (<[uuid4 clock := created_item clock [("content", PStr "hello");
                                                ("author", PStr "alice")]]> one)
     = 2%nat.
Proof.
  assert (Hp : json_loads (PyJson.dumps hello)
               = Some (PDict [("content", PStr "hello"); ("author", PStr "alice")]))
    by (vm_compute; reflexivity).
  assert (Hfresh : one !! uuid4 clock = None)
    by (vm_compute; reflexivity).
  do 4 (split; [ first [ exact Hp | exact Hfresh | reflexivity ] | ]).
  destruct (create_returns_201 table_name (posting hello) LambdaContext clock
              one _ (PyJson.dumps hello) _ _
              eq_refl Hp (put_created table_name clock _ one) eq_refl)
    as (Hrun & _ & _ & Hsize).
  split; [ exact Hrun | ].
  rewrite (Hsize Hfresh). vm_compute. reflexivity.
Defined.

Lemma all_returns_scanned_records_witness :
  scan table_name two = (Ok (Table.answer None (Some (Table.rows two)) None), two)
  /\ Items (Table.answer None (Some (Table.rows two)) None)
     = Some (Table.rows two)
  /\ exists posts,
       handler.all table_name (naming "p1") LambdaContext two
       = (Ok {| statusCode := 200; headers := None;
                body := Some (json_dumps (PList posts)) |}, two)
       /\ length posts = length (Table.rows two)
       /\ forall i, posts !! i = to_dict <$> Table.rows two !! i.
Proof.
  do 2 (split; [ reflexivity | ]).
  exact (all_returns_scanned_records table_name (naming "p1") LambdaContext
           two two _ (Table.rows two) eq_refl eq_refl).
Defined.

Lemma get_reads_only_its_key_witness :
  (forall k, path_parameter (naming "p1") "postId" = Ok k -> one !! k = two !! k)
  /\ snd (handler.get table_name (naming "p1") LambdaContext one) = one
  /\ fst (handler.get table_name (naming "p1") LambdaContext one)
     = fst (handler.get table_name (naming "p1") LambdaContext two).
Proof.
  assert (Hagree : forall k, path_parameter (naming "p1") "postId" = Ok k ->
                             one !! k = two !! k).
  { intros k [= <-]. vm_compute. reflexivity. }
  split; [ exact Hagree | ].
  exact (get_reads_only_its_key table_name (naming "p1") LambdaContext one two
           Hagree).
Defined.

(** *** Errors and edges *)

Lemma create_rejects_body_witness :
  handler.create table_name (naming "p1") LambdaContext clock one
  = (Raise TypeError, one)
  /\ handler.create table_name
       {| ev_body := Some "not json"; ev_pathParameters := None |}
       LambdaContext clock one
     = (Raise JSONDecodeError, one)
  /\ handler.create table_name (posting (PList [PInt 1; PInt 2]))
       LambdaContext clock one
     = (Raise TypeError, one).
Proof.
  split; [ | split ].
  - apply (create_rejects_body table_name (naming "p1") LambdaContext clock one).
    reflexivity.
  - apply (create_rejects_body table_name
             {| ev_body := Some "not json"; ev_pathParameters := None |}
             LambdaContext clock one) with (str := "not json");
      reflexivity.
  - apply (create_rejects_body table_name (posting (PList [PInt 1; PInt 2]))
             LambdaContext clock one)
      with (str := PyJson.dumps (PList [PInt 1; PInt 2]))
           (v := PList [PInt 1; PInt 2]);
      [ reflexivity | vm_compute; reflexivity | discriminate ].
Defined.

Lemma update_checks_in_order_witness :
  path_parameter (putting "p1" (PDict [("author", PStr "bob")])) "postId"
  = Ok "p1"
  /\ handler.update table_name (putting "p1" (PDict [("author", PStr "bob")]))
       LambdaContext clock one
     = (Raise (KeyError "content"), one)
  /\ handler.update table_name (putting "p1" (PDict [("content", PStr "x")]))
       LambdaContext clock one
     = (Raise (KeyError "author"), one).
Proof.
  split; [ reflexivity | split ].
  - apply (update_checks_in_order table_name
             (putting "p1" (PDict [("author", PStr "bob")]))
             LambdaContext clock one "p1" eq_refl)
      with (str := PyJson.dumps (PDict [("author", PStr "bob")]))
           (d := [("author", PStr "bob")]);
      [ reflexivity | vm_compute; reflexivity | reflexivity ].
  - apply (update_checks_in_order table_name
             (putting "p1" (PDict [("content", PStr "x")]))
             LambdaContext clock one "p1" eq_refl)
      with (str := PyJson.dumps (PDict [("content", PStr "x")]))
           (d := [("content", PStr "x")]) (content := PStr "x");
      [ reflexivity | vm_compute; reflexivity | reflexivity | reflexivity ].
Defined.

Lemma missing_post_id_raises_witness :
  (forall ps, ev_pathParameters (posting world) = Some ps ->
              Alist.lookup "postId" ps = None)
  /\ handler.get table_name (posting world) LambdaContext one
     = (Raise TypeError, one)
  /\ handler.update table_name (posting world) LambdaContext clock one
     = (Raise TypeError, one)
  /\ handler.delete table_name (posting world) LambdaContext one
     = (Raise TypeError, one).
Proof.
  assert (Hno : forall ps, ev_pathParameters (posting world) = Some ps ->
                           Alist.lookup "postId" ps = None)
    by (intros ps Hps; discriminate Hps).
  split; [ exact Hno | ].
  exact (missing_post_id_raises table_name (posting world) LambdaContext
           clock one Hno).
Defined.

Lemma store_exception_propagates_witness :
  path_parameter (naming "p1") "postId" = Ok "p1"
  /\ @get_item _ (refusing "ProvisionedThroughputExceededException")
       table_name [("id", AS "p1")] one
     = (Raise (ClientError "ProvisionedThroughputExceededException"), one)
  /\ @handler.get _ _ (refusing "ProvisionedThroughputExceededException")
       table_name (naming "p1") LambdaContext one
     = (Raise (ClientError "ProvisionedThroughputExceededException"), one).
Proof.
  do 2 (split; [ reflexivity | ]).
  apply (@store_exception_propagates _ _
           (refusing "ProvisionedThroughputExceededException") table_name
           (naming "p1") LambdaContext clock one one
           (ClientError "ProvisionedThroughputExceededException"))
    with (k := "p1"); reflexivity.
Defined.

Lemma checked_handlers_report_500_witness :
  HTTPStatusCode {| HTTPStatusCode := 503; Item := None; Items := None;
                    Attributes := None |} <> 200
  /\ path_parameter (naming "p1") "postId" = Ok "p1"
  /\ @handler.delete _ (answering 503) table_name (naming "p1") LambdaContext
       one
     = (Ok {| statusCode := 500; headers := None;
              body := Some "An error occurred while deleting post p1" |},
        delete "p1" one).
Proof.
  assert (Hcode : HTTPStatusCode {| HTTPStatusCode := 503; Item := None;
                                    Items := None; Attributes := None |} <> 200)
    by discriminate.
  split; [ exact Hcode | ]. split; [ reflexivity | ].
  apply (@checked_handlers_report_500 _ _ (answering 503) table_name
           (naming "p1") LambdaContext clock one (delete "p1" one) _ Hcode)
    with (k := "p1"); reflexivity.
Defined.

Lemma handler_status_codes_witness :
  handler.get table_name (naming "p1") LambdaContext one
  = (Ok {| statusCode := 200; headers := json_headers;
           body := Some (json_dumps (to_dict (AM stored))) |}, one)
  /\ ((statusCode {| statusCode := 200; headers := json_headers;
                     body := Some (json_dumps (to_dict (AM stored))) |} = 200
       /\ headers {| statusCode := 200; headers := json_headers;
                     body := Some (json_dumps (to_dict (AM stored))) |}
          = json_headers
       /\ is_Some (body {| statusCode := 200; headers := json_headers;
                           body := Some (json_dumps (to_dict (AM stored))) |}))
      \/ {| statusCode := 200; headers := json_headers;
            body := Some (json_dumps (to_dict (AM stored))) |}
         = {| statusCode := 500; headers := None;
              body := Some "An error occurred while getting post." |}).
Proof.
  assert (Hrun : handler.get table_name (naming "p1") LambdaContext one
                 = (Ok {| statusCode := 200; headers := json_headers;
                          body := Some (json_dumps (to_dict (AM stored))) |},
                    one)).
  { rewrite (get_on_table table_name (naming "p1") LambdaContext one "p1"
               eq_refl).
    reflexivity. }
  split; [ exact Hrun | ].
  exact (proj1 (proj2 (handler_status_codes table_name (naming "p1")
                         LambdaContext clock one one _)) Hrun).
Defined.

(** *** One handler after another *)

Lemma get_after_delete_witness :
  path_parameter (naming "p1") "postId" = Ok "p1"
  /\ exists tbl',
       handler.delete table_name (naming "p1") LambdaContext two
       = (Ok {| statusCode := 204; headers := None; body := None |}, tbl')
       /\ handler.get table_name (naming "p1") LambdaContext tbl'
          = (Ok {| statusCode := 500; headers := None;
                   body := Some "An error occurred while getting post." |},
             tbl').
Proof.
  split; [ reflexivity | ].
  exact (get_after_delete table_name (naming "p1") (naming "p1") LambdaContext
           LambdaContext two "p1" eq_refl eq_refl).
Defined.

Lemma update_absent_creates_partial_record_witness :
  path_parameter (putting "p9" world) "postId" = Ok "p9"
  /\ json_loads (PyJson.dumps world)
     = Some (PDict [("content", PStr "world"); ("author", PStr "alice");
                    ("id", PStr "forged")])
  /\ one !! "p9" = None
  /\ exists tbl',
       handler.update table_name (putting "p9" world) LambdaContext clock one
       = (Ok {| statusCode := 200; headers := None; body := None |}, tbl')
       /\ tbl' !! "p9"
          = Some [("id", AS "p9"); ("content", AS "world");
                  ("author", AS "alice");
                  ("updatedAt", AS (now_isoformat clock))]
       /\ handler.get table_name (naming "p9") LambdaContext tbl'
          = (Ok {| statusCode := 200; headers := json_headers;
                   body := Some (json_dumps
                             (PDict [("id", PStr "p9");
                                     ("content", PStr "world");
                                     ("author", PStr "alice");
                                     ("updatedAt",
                                      PStr (now_isoformat clock))])) |},
             tbl').
Proof.
  assert (Hp : json_loads (PyJson.dumps world)
               = Some (PDict [("content", PStr "world"); ("author", PStr "alice");
                              ("id", PStr "forged")]))
    by (vm_compute; reflexivity).
  assert (Hnone : one !! "p9" = None) by (vm_compute; reflexivity).
  do 3 (split; [ first [ exact Hp | exact Hnone | reflexivity ] | ]).
  exact (update_absent_creates_partial_record table_name (putting "p9" world)
           (naming "p9") LambdaContext LambdaContext clock one "p9"
           (PyJson.dumps world) _ (PStr "world") (PStr "alice")
           eq_refl eq_refl Hp eq_refl eq_refl Hnone eq_refl).
Defined.

Lemma get_after_update_witness :
  path_parameter (putting "p1" world) "postId" = Ok "p1"
  /\ json_loads (PyJson.dumps world)
     = Some (PDict [("content", PStr "world"); ("author", PStr "alice");
                    ("id", PStr "forged")])
  /\ one !! "p1" = Some stored
  /\ exists tbl' post,
       handler.update table_name (putting "p1" world) LambdaContext clock one
       = (Ok {| statusCode := 200; headers := None; body := None |}, tbl')
       /\ handler.get table_name (naming "p1") LambdaContext tbl'
          = (Ok {| statusCode := 200; headers := json_headers;
                   body := Some (json_dumps post) |}, tbl')
       /\ getitem post "content" = Ok (PStr "world")
       /\ getitem post "id" = Ok (PStr "p1")
       /\ getitem post "createdAt" = Ok (PStr "2024-04-30T08:00:00.000000").
Proof.
  assert (Hp : json_loads (PyJson.dumps world)
               = Some (PDict [("content", PStr "world"); ("author", PStr "alice");
                              ("id", PStr "forged")]))
    by (vm_compute; reflexivity).
  assert (Hold : one !! "p1" = Some stored) by (vm_compute; reflexivity).
  do 3 (split; [ first [ exact Hp | exact Hold | reflexivity ] | ]).
  destruct (get_after_update table_name (putting "p1" world) (naming "p1")
              LambdaContext LambdaContext clock one "p1" (PyJson.dumps world) _
              (PStr "world") (PStr "alice") stored
              eq_refl eq_refl Hp eq_refl eq_refl Hold eq_refl)
    as (tbl' & post & Hupd & Hget & Hc & _ & _ & Hframe).
  exists tbl', post. do 3 (split; [ assumption | ]).
  split; rewrite Hframe by discriminate; reflexivity.
Defined.

Lemma all_after_create_witness :
  ev_body (posting hello) = Some (PyJson.dumps hello)
  /\ json_loads (PyJson.dumps hello)
     = Some (PDict [("content", PStr "hello"); ("author", PStr "alice")])
  /\ one !! uuid4 clock = None
  /\ exists tbl' posts,
       handler.create table_name (posting hello) LambdaContext clock one
       = (Ok {| statusCode := 201; headers := None; body := None |}, tbl')
       /\ handler.all table_name (naming "p1") LambdaContext tbl'
          = (Ok {| statusCode := 200; headers := None;
                   body := Some (json_dumps (PList posts)) |}, tbl')
       /\ created clock [("content", PStr "hello"); ("author", PStr "alice")]
          ∈ posts
       /\ length posts = 2%nat.
Proof.
  assert (Hp : json_loads (PyJson.dumps hello)
               = Some (PDict [("content", PStr "hello"); ("author", PStr "alice")]))
    by (vm_compute; reflexivity).
  assert (Hfresh : one !! uuid4 clock = None) by (vm_compute; reflexivity).
  do 3 (split; [ first [ exact Hp | exact Hfresh | reflexivity ] | ]).
  destruct (all_after_create table_name (posting hello) (naming "p1")
              LambdaContext LambdaContext clock one (PyJson.dumps hello) _
              eq_refl Hp)
    as (tbl' & posts & Hcreate & Hall & Hin & _ & Hlen).
  exists tbl', posts. do 3 (split; [ assumption | ]).
  rewrite (Hlen Hfresh). vm_compute. reflexivity.
Defined.

Lemma update_twice_last_wins_witness :
  path_parameter (putting "p1" hello) "postId" = Ok "p1"
  /\ json_loads (PyJson.dumps hello)
     = Some (PDict [("content", PStr "hello"); ("author", PStr "alice")])
  /\ json_loads (PyJson.dumps world)
     = Some (PDict [("content", PStr "world"); ("author", PStr "alice");
                    ("id", PStr "forged")])
  /\ handler.update table_name (putting "p1" world) LambdaContext clock
       (snd (handler.update table_name (putting "p1" hello) LambdaContext
               {| now_isoformat := "2024-05-01T12:00:00.000000";
                  uuid4 := uuid4 clock |} two))
     = handler.update table_name (putting "p1" world) LambdaContext clock two.
Proof.
  assert (Hp1 : json_loads (PyJson.dumps hello)
                = Some (PDict [("content", PStr "hello");
                               ("author", PStr "alice")]))
    by (vm_compute; reflexivity).
  assert (Hp2 : json_loads (PyJson.dumps world)
                = Some (PDict [("content", PStr "world"); ("author", PStr "alice");
                               ("id", PStr "forged")]))
    by (vm_compute; reflexivity).
  do 3 (split; [ first [ exact Hp1 | exact Hp2 | reflexivity ] | ]).
  exact (update_twice_last_wins table_name (putting "p1" hello)
           (putting "p1" world) LambdaContext LambdaContext _ clock two "p1"
           (PyJson.dumps hello) (PyJson.dumps world) _ _
           (PStr "hello") (PStr "alice") (PStr "world") (PStr "alice")
           eq_refl eq_refl Hp1 eq_refl eq_refl
           eq_refl eq_refl Hp2 eq_refl eq_refl).
Defined.

Lemma create_then_delete_restores_witness :
  json_loads (PyJson.dumps hello)
  = Some (PDict [("content", PStr "hello"); ("author", PStr "alice")])
  /\ path_parameter (naming (uuid4 clock)) "postId" = Ok (uuid4 clock)
  /\ two !! uuid4 clock = None
  /\ handler.delete table_name (naming (uuid4 clock)) LambdaContext
       (snd (handler.create table_name (posting hello) LambdaContext clock two))
     = (Ok {| statusCode := 204; headers := None; body := None |}, two).
Proof.
  assert (Hp : json_loads (PyJson.dumps hello)
               = Some (PDict [("content", PStr "hello"); ("author", PStr "alice")]))
    by (vm_compute; reflexivity).
  assert (Hfresh : two !! uuid4 clock = None) by (vm_compute; reflexivity).
  do 3 (split; [ first [ exact Hp | exact Hfresh | reflexivity ] | ]).
  exact (create_then_delete_restores table_name (posting hello)
           (naming (uuid4 clock)) LambdaContext LambdaContext clock two
           (PyJson.dumps hello) _ eq_refl Hp eq_refl Hfresh).
Defined.

(** The calls of the sample requests, in the order they were made. *)
Example calls_of_a_session :
  fst (snd (@handler.delete _ logging table_name (naming "p1") LambdaContext
              (snd (@handler.get _ _ logging table_name (naming "p1")
                      LambdaContext
                      (snd (@handler.create _ _ logging table_name
                              (naming "p1") LambdaContext clock ([], one)))))))
  = [GetItem table_name [("id", AS "p1")];
     DeleteItem table_name [("id", AS "p1")]].
Proof. reflexivity. Qed.
End scenarios.
